(** * heb-sdk-unofficial: the log inspector and the flow summarizer

    A shallow embedding of [analyze_logs.py] and [scripts/flow_extractor.py]
    and the properties their specification states about them.

    Conventions of the embedding:
    - a Python [str] is a Rocq [string]; a character is read as the code
      point of the same number (0..255), which fixes the order used by
      [sorted] and the white space removed by [str.strip];
    - a decoded JSON document is a [value]; a Python [dict] is an
      association list in insertion order, read and written through
      [dict_get] and [dict_set] only, which keep its keys distinct;
    - statements that may raise run in the monad [M S]: the state [S] (the
      attributes of the object, or the standard output) survives an
      exception, as in-place mutation does in Python;
    - [json.loads] belongs to the Python library, not to the repository:
      every operation takes the decoder as a parameter and the theorems hold
      for all decoders.  [json_loads] is a decoder for a fragment of JSON,
      used to run the operations on concrete texts. *)

From Stdlib Require Import ZArith String Ascii List Bool Lia.
From Stdlib Require Import Sorting.Sorted Sorting.Permutation.
From Stdlib Require Import DecimalString OrderedTypeEx.
From stdpp Require Import base option list sorting gmap strings.

Set Warnings "-register-all".

(** ** Python values *)

Module Py.

(** The exceptions the two scripts can meet. *)
Inductive exn :=
| JSONDecodeError | AttributeError | TypeError | IndexError | KeyError
| ValueError.

Inductive outcome (A : Type) :=
| Return (a : A)
| Raise (e : exn).
Arguments Return {A} a.
Arguments Raise {A} e.

(** A Python [float] is observed by the scripts through its truth value and
    its [str] only; it is carried as these two observations. *)
Record pyfloat := { float_is_zero : bool; float_str : string }.

Inductive value :=
| VNone
| VBool (b : bool)
| VInt (z : Z)
| VFloat (f : pyfloat)
| VStr (s : string)
| VList (l : list value)
| VDict (d : list (string * value)).

(** *** dict *)

Definition dict (V : Type) : Type := list (string * V).

(** [d.get(k)], with [None] for Python's [None] default. *)
Fixpoint dict_get {V} (k : string) (d : dict V) : option V :=
  match d with
  | [] => None
  | (k', v) :: d' => if String.eqb k k' then Some v else dict_get k d'
  end.

(** [d.get(k, default)] *)
Definition dict_get_or {V} (k : string) (default : V) (d : dict V) : V :=
  match dict_get k d with Some v => v | None => default end.

(** [k in d] *)
Definition dict_contains {V} (k : string) (d : dict V) : bool :=
  match dict_get k d with Some _ => true | None => false end.

(** [d[k] = v]: an existing key keeps its position, a new key goes last. *)
Fixpoint dict_set {V} (k : string) (v : V) (d : dict V) : dict V :=
  match d with
  | [] => [(k, v)]
  | (k', v') :: d' =>
      if String.eqb k k' then (k', v) :: d' else (k', v') :: dict_set k v d'
  end.

(** [d.items()] *)
Definition dict_items {V} (d : dict V) : list (string * V) := d.

(** [dict(items)] *)
Definition dict_of_items {V} (items : list (string * V)) : dict V :=
  fold_left (fun d kv => dict_set (fst kv) (snd kv) d) items [].

Definition dict_keys {V} (d : dict V) : list string := map fst d.

(** *** str *)

(** [sub in s] *)
Fixpoint str_contains (sub s : string) : bool :=
  String.prefix sub s ||
  match s with
  | EmptyString => false
  | String _ s' => str_contains sub s'
  end.

Fixpoint str_drop (n : nat) (s : string) : string :=
  match n, s with
  | O, _ => s
  | S n', String _ s' => str_drop n' s'
  | S _, EmptyString => EmptyString
  end.

(** The text before and after the first occurrence of [sep]. *)
Fixpoint str_partition (sep s : string) : option (string * string) :=
  if String.prefix sep s then Some (EmptyString, str_drop (String.length sep) s)
  else match s with
       | EmptyString => None
       | String c s' =>
           match str_partition sep s' with
           | Some (a, b) => Some (String c a, b)
           | None => None
           end
       end.

(** [s.split(sep, 1)] for a non-empty [sep] *)
Definition str_split1 (sep s : string) : list string :=
  match str_partition sep s with
  | Some (a, b) => [a; b]
  | None => [s]
  end.

(** [c.isspace()] for a code point below 256 *)
Definition isspace (c : ascii) : bool :=
  let n := nat_of_ascii c in
  ((9 <=? n) && (n <=? 13)) || ((28 <=? n) && (n <=? 32))
  || (n =? 133) || (n =? 160).

Fixpoint str_lstrip (s : string) : string :=
  match s with
  | String c s' => if isspace c then str_lstrip s' else s
  | EmptyString => EmptyString
  end.

Fixpoint str_rstrip (s : string) : string :=
  match s with
  | EmptyString => EmptyString
  | String c s' =>
      match str_rstrip s' with
      | EmptyString => if isspace c then EmptyString else String c EmptyString
      | r => String c r
      end
  end.

(** [s.strip()] *)
Definition str_strip (s : string) : string := str_rstrip (str_lstrip s).

(** *** Built-ins on values *)

(** [bool(v)] *)
Definition truthy (v : value) : bool :=
  match v with
  | VNone => false
  | VBool b => b
  | VInt z => negb (Z.eqb z 0)
  | VFloat f => negb (float_is_zero f)
  | VStr s => negb (String.eqb s EmptyString)
  | VList l => match l with [] => false | _ => true end
  | VDict d => match d with [] => false | _ => true end
  end.

Definition is_dict (v : value) : bool :=
  match v with VDict _ => true | _ => false end.

Definition is_list (v : value) : bool :=
  match v with VList _ => true | _ => false end.

(** [v.get(k)]: only a dict has the method. *)
Definition py_get (v : value) (k : string) : outcome value :=
  match v with
  | VDict d => Return (match dict_get k d with Some x => x | None => VNone end)
  | _ => Raise AttributeError
  end.

(** [v.get(k, default)] *)
Definition py_get_or (v : value) (k : string) (default : value) : outcome value :=
  match v with
  | VDict d => Return (dict_get_or k default d)
  | _ => Raise AttributeError
  end.

Definition str_eq_value (s : string) (v : value) : bool :=
  match v with VStr s' => String.eqb s s' | _ => false end.

(** [s in v] for a str [s] *)
Definition py_in (s : string) (v : value) : outcome bool :=
  match v with
  | VDict d => Return (dict_contains s d)
  | VList l => Return (existsb (str_eq_value s) l)
  | VStr t => Return (str_contains s t)
  | _ => Raise TypeError
  end.

(** [v[s]] for a str [s] *)
Definition py_getitem (v : value) (s : string) : outcome value :=
  match v with
  | VDict d => match dict_get s d with
               | Some x => Return x
               | None => Raise KeyError
               end
  | _ => Raise TypeError
  end.

(** [len(v)] *)
Definition py_len (v : value) : outcome nat :=
  match v with
  | VList l => Return (length l)
  | VDict d => Return (length d)
  | VStr s => Return (String.length s)
  | _ => Raise TypeError
  end.

Fixpoint str_chars (s : string) : list value :=
  match s with
  | EmptyString => []
  | String c s' => VStr (String c EmptyString) :: str_chars s'
  end.

(** The elements a [for] loop over [v] visits. *)
Definition py_iter (v : value) : outcome (list value) :=
  match v with
  | VList l => Return l
  | VDict d => Return (map (fun kv => VStr (fst kv)) d)
  | VStr s => Return (str_chars s)
  | _ => Raise TypeError
  end.

(** [str(v)] of a value that is neither a list nor a dict. *)
Definition py_str (v : value) : string :=
  match v with
  | VNone => "None"
  | VBool true => "True"
  | VBool false => "False"
  | VInt z => NilZero.string_of_int (Z.to_int z)
  | VFloat f => float_str f
  | VStr s => s
  | VList _ | VDict _ => EmptyString
  end.

(** [json.loads(text)], the decoder being [loads]: [None] stands for the
    text it rejects with [JSONDecodeError]. *)
Definition json_loads_call (loads : string -> option value) (text : string)
  : outcome value :=
  match loads text with
  | Some data => Return data
  | None => Raise JSONDecodeError
  end.

(** *** Statements: state and exceptions *)

Definition M (S A : Type) : Type := S -> outcome A * S.

#[global] Instance M_ret {S} : MRet (M S) :=
  fun A (a : A) (s : S) => (Return a, s).

#[global] Instance M_bind {S} : MBind (M S) :=
  fun A B (f : A -> M S B) (m : M S A) (s : S) =>
    match m s with
    | (Return a, s') => f a s'
    | (Raise e, s') => (Raise e, s')
    end.

(** An expression that may raise, evaluated as a statement. *)
Definition eval {S A} (o : outcome A) : M S A := fun s => (o, s).

Definition modify {S} (f : S -> S) : M S unit := fun s => (Return tt, f s).

(** [try: body  except <caught>: handler], the state kept as the body left it. *)
Definition try_except {S A} (body : M S A) (caught : exn -> bool)
    (handler : exn -> M S A) : M S A :=
  fun s =>
    match body s with
    | (Return a, s') => (Return a, s')
    | (Raise e, s') => if caught e then handler e s' else (Raise e, s')
    end.

(** [for x in xs: body(x)] *)
Fixpoint for_each {S A} (xs : list A) (body : A -> M S unit) : M S unit :=
  match xs with
  | [] => mret tt
  | x :: xs' => body x ;; for_each xs' body
  end.

End Py.

(** ** A JSON decoder for concrete texts

    [decode] reads the fragment of JSON without [\u] escapes, fractions and
    exponents, and rejects every other text.  It stands in for [json.loads]
    where an operation is run on a concrete text; no theorem about the
    operations depends on it. *)

Module Json.
Import Py.

Definition dquote : ascii := "034"%char.
Definition backslash : ascii := "092"%char.

(** The concrete texts below are written with an apostrophe where JSON has
    a double quote. *)
Fixpoint text (s : string) : string :=
  match s with
  | EmptyString => EmptyString
  | String c s' => String (if Ascii.eqb c "'"%char then dquote else c) (text s')
  end.

Definition is_ws (c : ascii) : bool :=
  Ascii.eqb c " "%char || Ascii.eqb c "009"%char
  || Ascii.eqb c "010"%char || Ascii.eqb c "013"%char.

Fixpoint skip_ws (s : string) : string :=
  match s with
  | String c s' => if is_ws c then skip_ws s' else s
  | EmptyString => EmptyString
  end.

Definition digit_of (c : ascii) : option Z :=
  let n := nat_of_ascii c in
  if (48 <=? n) && (n <=? 57) then Some (Z.of_nat (n - 48)) else None.

Definition unescape (c : ascii) : option ascii :=
  if Ascii.eqb c dquote then Some dquote
  else if Ascii.eqb c backslash then Some backslash
  else if Ascii.eqb c "/"%char then Some "/"%char
  else if Ascii.eqb c "b"%char then Some "008"%char
  else if Ascii.eqb c "f"%char then Some "012"%char
  else if Ascii.eqb c "n"%char then Some "010"%char
  else if Ascii.eqb c "r"%char then Some "013"%char
  else if Ascii.eqb c "t"%char then Some "009"%char
  else None.

(** The characters of a string literal after its opening quote, and the
    text after its closing quote. *)
Fixpoint read_string (s : string) : option (string * string) :=
  match s with
  | EmptyString => None
  | String c s' =>
      if Ascii.eqb c dquote then Some (EmptyString, s')
      else if Ascii.eqb c backslash then
        match s' with
        | String e s'' =>
            match unescape e, read_string s'' with
            | Some c', Some (body, rest) => Some (String c' body, rest)
            | _, _ => None
            end
        | EmptyString => None
        end
      else if nat_of_ascii c <? 32 then None
      else match read_string s' with
           | Some (body, rest) => Some (String c body, rest)
           | None => None
           end
  end.

Fixpoint read_digits (acc : Z) (s : string) : Z * string :=
  match s with
  | String c s' =>
      match digit_of c with
      | Some d => read_digits (10 * acc + d) s'
      | None => (acc, s)
      end
  | EmptyString => (acc, s)
  end.

Definition starts_fraction (s : string) : bool :=
  match s with
  | String c _ =>
      Ascii.eqb c "."%char || Ascii.eqb c "e"%char || Ascii.eqb c "E"%char
  | EmptyString => false
  end.

(** An integer without sign: a single [0], or digits that start with a
    digit other than [0]. *)
Definition read_natural (s : string) : option (Z * string) :=
  match s with
  | String c s' =>
      match digit_of c with
      | Some d =>
          let '(n, rest) :=
            if Z.eqb d 0 then (0%Z, s') else read_digits d s' in
          if starts_fraction rest then None else Some (n, rest)
      | None => None
      end
  | EmptyString => None
  end.

Definition read_literal (word : string) (v : value) (s : string)
  : option (value * string) :=
  if String.prefix word s then Some (v, str_drop (String.length word) s)
  else None.

Fixpoint read_value (fuel : nat) (s : string) : option (value * string) :=
  match fuel with
  | O => None
  | S fuel' =>
      match skip_ws s with
      | EmptyString => None
      | String c rest as s0 =>
          if Ascii.eqb c "["%char then
            match skip_ws rest with
            | String c' rest' =>
                if Ascii.eqb c' "]"%char then Some (VList [], rest')
                else read_elements fuel' rest []
            | EmptyString => None
            end
          else if Ascii.eqb c "{"%char then
            match skip_ws rest with
            | String c' rest' =>
                if Ascii.eqb c' "}"%char then Some (VDict [], rest')
                else read_members fuel' rest []
            | EmptyString => None
            end
          else if Ascii.eqb c dquote then
            match read_string rest with
            | Some (body, rest') => Some (VStr body, rest')
            | None => None
            end
          else if Ascii.eqb c "-"%char then
            match read_natural rest with
            | Some (n, rest') => Some (VInt (- n), rest')
            | None => None
            end
          else if Ascii.eqb c "n"%char then read_literal "null" VNone s0
          else if Ascii.eqb c "t"%char then read_literal "true" (VBool true) s0
          else if Ascii.eqb c "f"%char then read_literal "false" (VBool false) s0
          else
            match read_natural s0 with
            | Some (n, rest') => Some (VInt n, rest')
            | None => None
            end
      end
  end
with read_elements (fuel : nat) (s : string) (acc : list value)
  : option (value * string) :=
  match fuel with
  | O => None
  | S fuel' =>
      match read_value fuel' s with
      | Some (v, rest) =>
          match skip_ws rest with
          | String c rest' =>
              if Ascii.eqb c ","%char then read_elements fuel' rest' (acc ++ [v])
              else if Ascii.eqb c "]"%char then Some (VList (acc ++ [v]), rest')
              else None
          | EmptyString => None
          end
      | None => None
      end
  end
with read_members (fuel : nat) (s : string) (acc : dict value)
  : option (value * string) :=
  match fuel with
  | O => None
  | S fuel' =>
      match skip_ws s with
      | String q rest =>
          if Ascii.eqb q dquote then
            match read_string rest with
            | Some (key, rest1) =>
                match skip_ws rest1 with
                | String colon rest2 =>
                    if Ascii.eqb colon ":"%char then
                      match read_value fuel' rest2 with
                      | Some (v, rest3) =>
                          match skip_ws rest3 with
                          | String c rest4 =>
                              if Ascii.eqb c ","%char
                              then read_members fuel' rest4 (dict_set key v acc)
                              else if Ascii.eqb c "}"%char
                              then Some (VDict (dict_set key v acc), rest4)
                              else None
                          | EmptyString => None
                          end
                      | None => None
                      end
                    else None
                | EmptyString => None
                end
            | None => None
            end
          else None
      | EmptyString => None
      end
  end.

Definition decode (s : string) : option value :=
  match read_value (2 * String.length s + 2) s with
  | Some (v, rest) =>
      match skip_ws rest with
      | EmptyString => Some v
      | String _ _ => None
      end
  | None => None
  end.

End Json.

(** ** scripts/flow_extractor.py *)

Module flow_extractor.
Import Py.

(** [flow.request] of a [mitmproxy.http.HTTPFlow], by the attributes the
    addon reads.  [get_text()] gives the decoded body, [None] when there is
    none, and raises when the body cannot be decoded. *)
Record HTTPFlow := {
  request_pretty_host : string;
  request_method : string;
  request_url : string;
  request_path : string;
  request_get_text : outcome (option string)
}.

(** One entry of [graphql_calls]; the fields are the keys of the dict the
    addon appends. *)
Record call_record := {
  host : string;
  operationName : value;
  path : string;
  sha256Hash : value;
  variables : value
}.

Record FlowSummarizer := {
  endpoints : dict nat;
  graphql_calls : list call_record;
  hosts : dict nat;
  output_path : string
}.

Definition set_endpoints (f : dict nat -> dict nat) (self : FlowSummarizer) :=
  {| endpoints := f (endpoints self); graphql_calls := graphql_calls self;
     hosts := hosts self; output_path := output_path self |}.

Definition set_hosts (f : dict nat -> dict nat) (self : FlowSummarizer) :=
  {| endpoints := endpoints self; graphql_calls := graphql_calls self;
     hosts := f (hosts self); output_path := output_path self |}.

(** [self.graphql_calls.append(r)] *)
Definition append_call (r : call_record) (self : FlowSummarizer) :=
  {| endpoints := endpoints self; graphql_calls := graphql_calls self ++ [r];
     hosts := hosts self; output_path := output_path self |}.

(** [os.environ.get("SUMMARY_OUTPUT_PATH", "summary.json")] and the empty
    containers. *)
Definition __init__ (environ : gmap string string) : FlowSummarizer :=
  {| endpoints := [];
     graphql_calls := [];
     hosts := [];
     output_path := default "summary.json" (environ !! "SUMMARY_OUTPUT_PATH") |}.

(** [d[k] = d.get(k, 0) + 1] *)
Definition bump (k : string) (d : dict nat) : dict nat :=
  dict_set k (dict_get_or k 0 d + 1) d.

(** [f"{method} {url}"] *)
Definition endpoint_key (flow : HTTPFlow) : string :=
  request_method flow +:+ " " +:+ request_url flow.

Definition _process_graphql_item (flow : HTTPFlow) (item : value)
  : M FlowSummarizer unit :=
  operation_name ← eval (py_get item "operationName");
  variables ← eval (py_get item "variables");
  extensions ← eval (py_get item "extensions");
  sha256_hash ←
    (if truthy extensions then
       has_persisted ← eval (py_in "persistedQuery" extensions);
       if has_persisted : bool then
         persisted ← eval (py_getitem extensions "persistedQuery");
         eval (py_get persisted "sha256Hash")
       else mret VNone
     else mret VNone);
  modify (append_call
    {| host := request_pretty_host flow;
       operationName := operation_name;
       path := request_path flow;
       sha256Hash := sha256_hash;
       variables := variables |}).

Section with_decoder.

(** [json.loads] *)
Variable loads : string -> option value.

(** [if content:] on the result of [get_text()] *)
Definition content_truthy (content : option string) : option string :=
  match content with
  | Some text => if String.eqb text EmptyString then None else Some text
  | None => None
  end.

(** [except Exception] catches every exception of [exn]. *)
Definition any_Exception (e : exn) : bool := true.

(** The body of the [try] statement of [response]. *)
Definition inspect_graphql (flow : HTTPFlow) : M FlowSummarizer unit :=
  content ← eval (request_get_text flow);
  match content_truthy content with
  | Some text =>
      data ← eval (json_loads_call loads text);
      match data with
      | VList items =>
          for_each items (fun item => _process_graphql_item flow item)
      | _ => _process_graphql_item flow data
      end
  | None => mret tt
  end.

Definition response (flow : HTTPFlow) : M FlowSummarizer unit :=
  let host := request_pretty_host flow in
  let endpoint_key := endpoint_key flow in
  modify (set_hosts (bump host));;
  modify (set_endpoints (bump endpoint_key));;
  if str_contains "/graphql" (request_path flow) then
    try_except (inspect_graphql flow) any_Exception (fun _ => mret tt)
  else mret tt.

(** The object after the host has delivered [flows] in order. *)
Definition deliver (flows : list HTTPFlow) (self : FlowSummarizer)
  : FlowSummarizer :=
  fold_left (fun s flow => snd (response flow s)) flows self.

End with_decoder.

(** *** done *)

(** Python compares the [(key, count)] tuples of [items()] by key, then by
    count. *)
Definition item_le (a b : string * nat) : Prop :=
  match String.compare (fst a) (fst b) with
  | Lt => True
  | Eq => snd a <= snd b
  | Gt => False
  end.

#[global] Instance item_le_dec a b : Decision (item_le a b) :=
  match String.compare (fst a) (fst b) as c
    return Decision (match c with
                     | Lt => True
                     | Eq => snd a <= snd b
                     | Gt => False
                     end)
  with
  | Lt => left I
  | Eq => le_dec (snd a) (snd b)
  | Gt => right (fun H => H)
  end.

(** [sorted(items)] *)
Definition sorted (items : list (string * nat)) : list (string * nat) :=
  merge_sort item_le items.

(** The document [json.dump] writes. *)
Record summary := {
  summary_endpoints : dict nat;
  summary_graphql_calls : list call_record;
  summary_hosts : dict nat
}.

Definition make_summary (self : FlowSummarizer) : summary :=
  {| summary_endpoints := dict_of_items (sorted (dict_items (endpoints self)));
     summary_graphql_calls := graphql_calls self;
     summary_hosts := dict_of_items (sorted (dict_items (hosts self))) |}.

(** [done] opens [output_path] for writing, which truncates it, and dumps
    the summary; the file system maps a path to the document it holds. *)
Definition done (self : FlowSummarizer) (files : gmap string summary)
  : gmap string summary :=
  <[output_path self := make_summary self]> files.

(** [a < b] on str *)
Definition str_lt (a b : string) : Prop := String.compare a b = Lt.

(** *** The records the specification describes *)

(** The hash nested under [extensions.persistedQuery.sha256Hash], [None]
    when a step of the path is absent. *)
Definition nested_hash (item : value) : value :=
  match item with
  | VDict d =>
      match dict_get "extensions" d with
      | Some (VDict e) =>
          match dict_get "persistedQuery" e with
          | Some (VDict p) => dict_get_or "sha256Hash" VNone p
          | _ => VNone
          end
      | _ => VNone
      end
  | _ => VNone
  end.

Definition field_or_null (item : value) (k : string) : value :=
  match item with
  | VDict d => dict_get_or k VNone d
  | _ => VNone
  end.

Definition record_of (flow : HTTPFlow) (item : value) : call_record :=
  {| host := request_pretty_host flow;
     operationName := field_or_null item "operationName";
     path := request_path flow;
     sha256Hash := nested_hash item;
     variables := field_or_null item "variables" |}.

(** The values of [extensions] the extraction gets through: a falsy one, a
    str or a list without ["persistedQuery"], a dict without that key or
    with a dict under it. *)
Definition extensions_ok (extensions : value) : bool :=
  negb (truthy extensions) ||
  match extensions with
  | VDict e =>
      match dict_get "persistedQuery" e with
      | Some p => is_dict p
      | None => true
      end
  | VList l => negb (existsb (str_eq_value "persistedQuery") l)
  | VStr t => negb (str_contains "persistedQuery" t)
  | _ => false
  end.

(** The items of a batch the extraction gets through. *)
Definition item_ok (item : value) : bool :=
  match item with
  | VDict d => extensions_ok (dict_get_or "extensions" VNone d)
  | _ => false
  end.

(** [self] with [records] appended to its calls and nothing else changed. *)
Definition with_calls (self : FlowSummarizer) (records : list call_record)
  : FlowSummarizer :=
  {| endpoints := endpoints self;
     graphql_calls := graphql_calls self ++ records;
     hosts := hosts self;
     output_path := output_path self |}.

(** The object after the two tallies of [response] have been updated. *)
Definition tallied (flow : HTTPFlow) (self : FlowSummarizer) : FlowSummarizer :=
  set_endpoints (bump (endpoint_key flow))
    (set_hosts (bump (request_pretty_host flow)) self).

(** The items of a batch before the first one the extraction stops at. *)
Fixpoint accepted (items : list value) : list value :=
  match items with
  | [] => []
  | item :: rest => if item_ok item then item :: accepted rest else []
  end.

(** [flow] with another request body. *)
Definition with_text (flow : HTTPFlow) (body : outcome (option string))
  : HTTPFlow :=
  {| request_pretty_host := request_pretty_host flow;
     request_method := request_method flow;
     request_url := request_url flow;
     request_path := request_path flow;
     request_get_text := body |}.

(** *** Concrete flows *)

Definition plain_flow (h m u p : string) : HTTPFlow :=
  {| request_pretty_host := h; request_method := m; request_url := u;
     request_path := p; request_get_text := Return None |}.

Definition get_a_x : HTTPFlow := plain_flow "a" "GET" "http://a/x" "/x".
Definition post_b_y : HTTPFlow := plain_flow "b" "POST" "http://b/y" "/y".

Definition graphql_post (body : string) : HTTPFlow :=
  {| request_pretty_host := "api.example";
     request_method := "POST";
     request_url := "https://api.example/graphql";
     request_path := "/graphql";
     request_get_text := Return (Some (Json.text body)) |}.

Definition cart_item : string :=
  "{'operationName':'Cart','variables':{'id':7},'extensions':{'persistedQuery':{'version':1,'sha256Hash':'c0ffee'}}}".

Definition home_item : string := "{'operationName':'Home'}".

Definition null_persisted_item : string :=
  "{'operationName':'Deals','extensions':{'persistedQuery':null}}".

Definition batch_of_two : HTTPFlow :=
  graphql_post ("[" +:+ cart_item +:+ "," +:+ home_item +:+ "]").

Definition batch_with_null_persisted : HTTPFlow :=
  graphql_post ("[" +:+ home_item +:+ "," +:+ null_persisted_item +:+ "]").

Definition batch_with_number : HTTPFlow :=
  graphql_post ("[" +:+ cart_item +:+ ", 7, " +:+ home_item +:+ "]").

(** The values [cart_item] and [home_item] decode to. *)
Definition cart_value : value :=
  VDict [("operationName", VStr "Cart");
         ("variables", VDict [("id", VInt 7)]);
         ("extensions",
          VDict [("persistedQuery",
                  VDict [("version", VInt 1); ("sha256Hash", VStr "c0ffee")])])].

Definition home_value : value := VDict [("operationName", VStr "Home")].

Definition cart_record : call_record :=
  {| host := "api.example";
     operationName := VStr "Cart";
     path := "/graphql";
     sha256Hash := VStr "c0ffee";
     variables := VDict [("id", VInt 7)] |}.

Definition home_record : call_record :=
  {| host := "api.example";
     operationName := VStr "Home";
     path := "/graphql";
     sha256Hash := VNone;
     variables := VNone |}.

Definition used_state : FlowSummarizer :=
  {| endpoints := [("GET http://a/x", 2)];
     graphql_calls := [home_record];
     hosts := [("a", 2)];
     output_path := "out.json" |}.

(** *** Counting what was delivered *)

(** How many of [flows] have [k] as their [key]. *)
Definition count_key (key : HTTPFlow -> string) (k : string)
    (flows : list HTTPFlow) : nat :=
  length (List.filter (fun flow => String.eqb (key flow) k) flows).

(** The sum of the counts of a tally. *)
Definition total (d : dict nat) : nat := list_sum (map snd d).

(** *** More concrete flows *)

Definition single_cart : HTTPFlow := graphql_post cart_item.

Definition single_number : HTTPFlow := graphql_post "42".

Definition empty_body : HTTPFlow := graphql_post "".

Definition not_json : HTTPFlow := graphql_post "query { cart { id } }".

Definition undecodable_body : HTTPFlow :=
  with_text (graphql_post "") (Raise ValueError).

End flow_extractor.

(** ** analyze_logs.py *)

Module analyze_logs.
Import Py.

Definition marker : string := "DEBUG: entryPoint(home-page) response:".

(** One constructor per [print] statement of the script, with the values its
    f-string interpolates. *)
Inductive printed :=
| Found (n : nat)
| Component (number : nat) (typename : value)
| ListField (key : string) (n : nat)
| DictField (key : string)
| ScalarField (key : string) (val_str : string)
| DecodeFailed.

(** The standard output, and how many lines the loop has taken from the
    file. *)
Record console := { stdout : list printed; lines_read : nat }.

Definition print (p : printed) : M console unit :=
  modify (fun c => {| stdout := stdout c ++ [p]; lines_read := lines_read c |}).

Definition next_line : M console unit :=
  modify (fun c => {| stdout := stdout c; lines_read := S (lines_read c) |}).

(** The branch of the inner loop taken for one [(key, value)] item. *)
Definition describe_field (item : string * value) : printed :=
  let key := fst item in
  match snd item with
  | VList l => ListField key (length l)
  | VDict _ => DictField key
  | value =>
      let val_str := py_str value in
      ScalarField key
        (if 50 <? String.length val_str
         then String.substring 0 50 val_str +:+ "..."
         else val_str)
  end.

(** [comp.items()] *)
Definition py_items (v : value) : outcome (list (string * value)) :=
  match v with
  | VDict d => Return (dict_items d)
  | _ => Raise AttributeError
  end.

(** The body of [for i, comp in enumerate(components)]. *)
Definition print_component (i : nat) (comp : value) : M console unit :=
  typename ← eval (py_get_or comp "__typename" (VStr "Unknown"));
  print (Component (i + 1) typename);;
  items ← eval (py_items comp);
  for_each items (fun item => print (describe_field item)).

(** [enumerate(xs)], counting from [start]. *)
Fixpoint enumerate_from {A} (start : nat) (xs : list A) : list (nat * A) :=
  match xs with
  | [] => []
  | x :: xs' => (start, x) :: enumerate_from (S start) xs'
  end.

Definition enumerate {A} (xs : list A) : list (nat * A) := enumerate_from 0 xs.

Definition is_JSONDecodeError (e : exn) : bool :=
  match e with JSONDecodeError => true | _ => false end.

(** The statements of the [try] block after [json.loads]. *)
Definition print_components (data : value) : M console unit :=
  top ← eval (py_get_or data "data" (VDict []));
  entry ← eval (py_get_or top "nativeEntryPoint" (VDict []));
  components ← eval (py_get_or entry "visualComponents" (VList []));
  n ← eval (py_len components);
  print (Found n);;
  comps ← eval (py_iter components);
  for_each (enumerate comps) (fun ic => print_component (fst ic) (snd ic)).

Section with_decoder.

(** [json.loads] *)
Variable loads : string -> option value.

(** The [try] statement. *)
Definition report (json_str : string) : M console unit :=
  try_except
    (data ← eval (json_loads_call loads json_str);
     print_components data)
    is_JSONDecodeError
    (fun _ => print DecodeFailed).

(** [line.split("response: ", 1)[1]] *)
Definition after_response (line : string) : outcome string :=
  match nth_error (str_split1 "response: " line) 1 with
  | Some text => Return text
  | None => Raise IndexError
  end.

(** The loop over the lines of the file; the [break] ends it at the first
    line that holds the marker. *)
Fixpoint scan (lines : list string) : M console unit :=
  match lines with
  | [] => mret tt
  | line :: rest =>
      next_line;;
      if str_contains marker line then
        text ← eval (after_response line);
        report (str_strip text)
      else scan rest
  end.

(** The script run on a file that holds [lines]: how it ends and what it has
    printed. *)
Definition main (lines : list string) : outcome unit * console :=
  scan lines {| stdout := []; lines_read := 0 |}.

End with_decoder.

(** *** Reading the output *)

(** The console after [out] has been printed. *)
Definition emit (c : console) (out : list printed) : console :=
  {| stdout := stdout c ++ out; lines_read := lines_read c |}.

(** The console after [n] more lines have been taken from the file. *)
Definition advance (c : console) (n : nat) : console :=
  {| stdout := stdout c; lines_read := lines_read c + n |}.

Definition is_typename_line (p : printed) : bool :=
  match p with Component _ _ => true | _ => false end.

Definition is_description_line (p : printed) : bool :=
  match p with
  | ListField _ _ | DictField _ | ScalarField _ _ => true
  | _ => false
  end.

Definition typename_lines (out : list printed) : nat :=
  length (List.filter is_typename_line out).

Definition description_lines (out : list printed) : nat :=
  length (List.filter is_description_line out).

(** The fields of a component, and those other than the variant tag. *)
Definition fields (comp : value) : list (string * value) :=
  match comp with VDict d => d | _ => [] end.

Definition other_fields (comp : value) : list (string * value) :=
  List.filter (fun item => negb (String.eqb (fst item) "__typename"))
    (fields comp).

(** What the script prints for the component at index [i]. *)
Definition component_output (ic : nat * value) : list printed :=
  Component (fst ic + 1)
    (dict_get_or "__typename" (VStr "Unknown") (fields (snd ic)))
  :: map describe_field (fields (snd ic)).

(** The list at [data.nativeEntryPoint.visualComponents] of a payload in
    which every field of the path is present. *)
Definition visual_components (data : value) : option value :=
  match data with
  | VDict d0 =>
      match dict_get "data" d0 with
      | Some (VDict d1) =>
          match dict_get "nativeEntryPoint" d1 with
          | Some (VDict d2) => dict_get "visualComponents" d2
          | _ => None
          end
      | _ => None
      end
  | _ => None
  end.

(** A value of [visualComponents] on which the script raises: one without
    a length, a str or dict that is not empty, a list with an entry that is
    not a dict. *)
Definition bad_components (v : value) : bool :=
  match v with
  | VList l => existsb (fun comp => negb (is_dict comp)) l
  | VDict d => match d with [] => false | _ => true end
  | VStr s => negb (String.eqb s EmptyString)
  | _ => true
  end.

(** A payload with [data] or [nativeEntryPoint] present and not a dict, or
    with [visualComponents] present and bad. *)
Definition bad_payload (data : value) : bool :=
  match data with
  | VDict d0 =>
      match dict_get "data" d0 with
      | Some (VDict d1) =>
          match dict_get "nativeEntryPoint" d1 with
          | Some (VDict d2) =>
              match dict_get "visualComponents" d2 with
              | Some v => bad_components v
              | None => false
              end
          | Some _ => true
          | None => false
          end
      | Some _ => true
      | None => false
      end
  | _ => false
  end.

(** The first line of [lines] that holds the marker, with the number of
    lines before it. *)
Fixpoint first_marker_line (lines : list string) : option (nat * string) :=
  match lines with
  | [] => None
  | line :: rest =>
      if str_contains marker line then Some (0, line)
      else match first_marker_line rest with
           | Some (n, l) => Some (S n, l)
           | None => None
           end
  end.

(** *** Concrete log files *)

Definition marker_line (payload : string) : string :=
  "2026-01-14 DEBUG: entryPoint(home-page) response: "
  +:+ Json.text payload +:+ String "010"%char EmptyString.

Definition banner_log : list string :=
  [ "INFO: starting";
    marker_line
      "{'data':{'nativeEntryPoint':{'visualComponents':[{'__typename':'Banner','items':[1,2],'id':'b1'},{'style':{}}]}}}";
    "INFO: done" ].

Definition tag_only_log : list string :=
  [ marker_line
      "{'data':{'nativeEntryPoint':{'visualComponents':[{'__typename':'Banner'}]}}}" ].

Definition empty_string_log : list string :=
  [ marker_line "{'data':{'nativeEntryPoint':{'visualComponents':''}}}" ].

Definition null_entry_log : list string :=
  [ "INFO: starting";
    marker_line
      "{'data':{'nativeEntryPoint':{'visualComponents':[{'__typename':'Banner'},null]}}}" ].

Definition quiet_log : list string :=
  [ "INFO: starting"; "DEBUG: entryPoint(search) response: {}"; "INFO: done" ].

(** *** Payloads with a step of the path missing *)

(** A payload in which [data], [nativeEntryPoint] or [visualComponents] is
    absent and every step before the absent one is a dict. *)
Definition path_missing (data : value) : bool :=
  match data with
  | VDict d0 =>
      match dict_get "data" d0 with
      | None => true
      | Some (VDict d1) =>
          match dict_get "nativeEntryPoint" d1 with
          | None => true
          | Some (VDict d2) =>
              match dict_get "visualComponents" d2 with
              | None => true
              | Some _ => false
              end
          | Some _ => false
          end
      | Some _ => false
      end
  | _ => false
  end.

(** *** More concrete log files *)

Definition no_space_log : list string :=
  [ "INFO: starting"; "DEBUG: entryPoint(home-page) response:{}"; "INFO: done" ].

Definition broken_json_log : list string :=
  [ marker_line "{'data': "; "INFO: done" ].

Definition no_entry_point_log : list string :=
  [ marker_line "{'data':{'other':1}}" ].

Definition list_payload_log : list string :=
  [ marker_line "[1, 2]" ].

Definition two_marker_log : list string :=
  [ marker_line "{'data':{'nativeEntryPoint':{'visualComponents':[{'id':'first'}]}}}";
    marker_line "{'data':{'nativeEntryPoint':{'visualComponents':[{'id':'second'}]}}}" ].

(** *** The script over a decoder that may raise anything *)

Section with_raising_decoder.

(** [json.loads] with every way it can end: a value, [JSONDecodeError], or
    another exception, such as the [ValueError] it raises for an integer
    over the digit limit. *)
Variable loads_outcome : string -> outcome value.

(** The [try] statement. *)
Definition report_with (json_str : string) : M console unit :=
  try_except
    (data ← eval (loads_outcome json_str);
     print_components data)
    is_JSONDecodeError
    (fun _ => print DecodeFailed).

(** The loop over the lines of the file. *)
Fixpoint scan_with (lines : list string) : M console unit :=
  match lines with
  | [] => mret tt
  | line :: rest =>
      next_line;;
      if str_contains marker line then
        text ← eval (after_response line);
        report_with (str_strip text)
      else scan_with rest
  end.

Definition main_with (lines : list string) : outcome unit * console :=
  scan_with lines {| stdout := []; lines_read := 0 |}.

End with_raising_decoder.




End analyze_logs.

(** * Properties *)

(** ** Facts about dicts and statements *)

Module PyFacts.
Import Py.

Section dict_facts.
Context {V : Type}.
Implicit Types (k : string) (v : V) (d : dict V).

Lemma dict_get_set_eq k v d : dict_get k (dict_set k v d) = Some v.
Proof.
  induction d as [|[k' v'] d IH]; simpl.
  - now rewrite String.eqb_refl.
  - destruct (String.eqb k k') eqn:E; simpl; rewrite E; [reflexivity | exact IH].
Qed.

Lemma dict_get_set_ne k k' v d :
  k <> k' -> dict_get k' (dict_set k v d) = dict_get k' d.
Proof.
  intros Hne. induction d as [|[k0 v0] d IH]; simpl.
  - destruct (String.eqb_spec k' k); [congruence | reflexivity].
  - destruct (String.eqb_spec k k0) as [->|Hk]; simpl.
    + destruct (String.eqb_spec k' k0); [congruence | reflexivity].
    + now rewrite IH.
Qed.

Lemma dict_get_None_keys k d : dict_get k d = None <-> ~ In k (dict_keys d).
Proof.
  induction d as [|[k' v'] d IH]; simpl.
  - tauto.
  - destruct (String.eqb_spec k k') as [->|Hk].
    + split; [discriminate | intros H; exfalso; apply H; now left].
    + rewrite IH. split; [intros H [E|E]; [congruence | tauto] | tauto].
Qed.

Lemma dict_set_fresh k v d : dict_get k d = None -> dict_set k v d = d ++ [(k, v)].
Proof.
  induction d as [|[k' v'] d IH]; simpl; [reflexivity|].
  destruct (String.eqb k k'); [discriminate|].
  intros H. now rewrite IH.
Qed.

Lemma dict_set_present_keys k v v0 d :
  dict_get k d = Some v0 -> dict_keys (dict_set k v d) = dict_keys d.
Proof.
  induction d as [|[k' v'] d IH]; simpl; [discriminate|].
  destruct (String.eqb k k'); simpl; [reflexivity|].
  intros H. f_equal. now apply IH.
Qed.

Lemma dict_set_NoDup k v d : NoDup (dict_keys d) -> NoDup (dict_keys (dict_set k v d)).
Proof.
  intros Hd. destruct (dict_get k d) as [v0|] eqn:E.
  - now rewrite (dict_set_present_keys k v v0 d E).
  - rewrite (dict_set_fresh k v d E). unfold dict_keys. rewrite map_app. simpl.
    apply NoDup_app. split; [exact Hd|]. split.
    + intros x Hx Hin. apply list_elem_of_In in Hx.
      apply list_elem_of_singleton in Hin. subst x.
      now apply dict_get_None_keys in E.
    + apply NoDup_singleton.
Qed.

Lemma dict_get_In k v d :
  NoDup (dict_keys d) -> (dict_get k d = Some v <-> In (k, v) d).
Proof.
  induction d as [|[k' v'] d IH]; simpl; intros Hd.
  - split; [discriminate | tauto].
  - apply NoDup_cons in Hd as [Hk' Hd].
    destruct (String.eqb_spec k k') as [->|Hk].
    + split.
      * intros [= ->]. now left.
      * intros [[= ->]|Hin]; [reflexivity|].
        exfalso. apply Hk'. apply list_elem_of_In.
        change k' with (fst (k', v)). now apply in_map.
    + rewrite (IH Hd). split; [tauto|]. intros [[= E _]|Hin]; [congruence|tauto].
Qed.

Lemma dict_get_Permutation k d d' :
  NoDup (dict_keys d) -> Permutation d d' -> dict_get k d = dict_get k d'.
Proof.
  intros Hd Hp.
  assert (Hd' : NoDup (dict_keys d')).
  { unfold dict_keys. rewrite <- Hp. exact Hd. }
  destruct (dict_get k d) as [v|] eqn:E.
  - symmetry. apply (dict_get_In _ _ _ Hd'). rewrite <- Hp.
    now apply (dict_get_In _ _ _ Hd).
  - symmetry. apply dict_get_None_keys. apply dict_get_None_keys in E.
    unfold dict_keys in *. now rewrite <- Hp.
Qed.

Lemma dict_of_items_app (acc items : list (string * V)) :
  NoDup (map fst (acc ++ items)) ->
  fold_left (fun d kv => dict_set (fst kv) (snd kv) d) items acc = acc ++ items.
Proof.
  revert acc. induction items as [|[k v] items IH]; intros acc Hnd; simpl.
  - now rewrite app_nil_r.
  - assert (Hfresh : dict_get k acc = None).
    { apply dict_get_None_keys. unfold dict_keys.
      rewrite map_app in Hnd. simpl in Hnd.
      apply NoDup_app in Hnd as (_ & Hdisj & _).
      intros Hin. apply (Hdisj k); [now apply list_elem_of_In | now left]. }
    rewrite (dict_set_fresh k v acc Hfresh).
    rewrite IH; rewrite <- app_assoc; simpl; [reflexivity | exact Hnd].
Qed.

Lemma dict_of_items_NoDup (items : list (string * V)) :
  NoDup (map fst items) -> dict_of_items items = items.
Proof. intros H. unfold dict_of_items. now rewrite dict_of_items_app. Qed.

End dict_facts.

Ltac run_stmt :=
  unfold mbind, M_bind, mret, M_ret, eval, modify; simpl.

End PyFacts.

(** ** Facts about the flow summarizer *)

Module FlowSummarizerFacts.
Import Py PyFacts flow_extractor.

Lemma with_calls_nil self : with_calls self [] = self.
Proof. destruct self. unfold with_calls. simpl. now rewrite app_nil_r. Qed.

Lemma with_calls_app self r1 r2 :
  with_calls (with_calls self r1) r2 = with_calls self (r1 ++ r2).
Proof. unfold with_calls. simpl. now rewrite app_assoc. Qed.

(** An item the extraction gets through adds the record the specification
    describes. *)
Lemma process_item_ok flow item self :
  item_ok item = true ->
  _process_graphql_item flow item self
  = (Return tt, with_calls self [record_of flow item]).
Proof.
  destruct item as [| | | | | |d]; simpl; try discriminate.
  unfold _process_graphql_item, record_of, nested_hash, field_or_null.
  unfold extensions_ok, dict_get_or. run_stmt.
  destruct (dict_get "extensions" d) as [ext|]; [|reflexivity].
  destruct ext as [|b|z|f|t|l|e]; simpl.
  - reflexivity.
  - destruct b; [discriminate | reflexivity].
  - destruct (Z.eqb z 0); [reflexivity | discriminate].
  - destruct (float_is_zero f); [reflexivity | discriminate].
  - destruct (String.eqb t EmptyString); simpl; [reflexivity|].
    destruct (str_contains "persistedQuery" t); [discriminate | reflexivity].
  - destruct l as [|x l]; [reflexivity|]. cbn [negb orb].
    destruct (existsb (str_eq_value "persistedQuery") (x :: l));
      [discriminate | reflexivity].
  - destruct e as [|kv e]; [reflexivity|]. cbn [negb orb].
    unfold dict_contains.
    destruct (dict_get "persistedQuery" (kv :: e)) as [p|]; [|reflexivity].
    destruct p; simpl; try discriminate. reflexivity.
Qed.

(** Any other item raises before anything is appended. *)
Lemma process_item_bad flow item self :
  item_ok item = false ->
  exists e, _process_graphql_item flow item self = (Raise e, self).
Proof.
  destruct item as [| | | | | |d]; simpl;
    try (intros _; exists AttributeError; reflexivity).
  unfold _process_graphql_item, extensions_ok, dict_get_or. run_stmt.
  destruct (dict_get "extensions" d) as [ext|]; [|discriminate].
  destruct ext as [|b|z|f|t|l|e]; simpl.
  - discriminate.
  - destruct b; [|discriminate]. intros _. now exists TypeError.
  - destruct (Z.eqb z 0); [discriminate|]. intros _. now exists TypeError.
  - destruct (float_is_zero f); [discriminate|]. intros _. now exists TypeError.
  - destruct (String.eqb t EmptyString); simpl; [discriminate|].
    destruct (str_contains "persistedQuery" t); [|discriminate].
    intros _. now exists TypeError.
  - destruct l as [|x l]; [discriminate|]. cbn [negb orb].
    destruct (existsb (str_eq_value "persistedQuery") (x :: l));
      [|discriminate].
    intros _. now exists TypeError.
  - destruct e as [|kv e]; [discriminate|]. cbn [negb orb].
    unfold dict_contains.
    destruct (dict_get "persistedQuery" (kv :: e)) as [p|]; [|discriminate].
    destruct p; simpl; try discriminate; intros _; now exists AttributeError.
Qed.

(** The loop over a batch appends the records of the accepted items and
    ends normally exactly when every item is accepted. *)
Lemma for_each_items flow items self :
  exists o,
    for_each items (fun item => _process_graphql_item flow item) self
    = (o, with_calls self (map (record_of flow) (accepted items)))
    /\ (forallb item_ok items = true -> o = Return tt).
Proof.
  revert self. induction items as [|item items IH]; intros self; simpl.
  - exists (Return tt). rewrite with_calls_nil. auto.
  - unfold mbind, M_bind.
    destruct (item_ok item) eqn:Hok.
    + rewrite (process_item_ok flow item self Hok).
      destruct (IH (with_calls self [record_of flow item])) as (o & Ho & Hall).
      exists o. simpl. rewrite Ho, with_calls_app. auto.
    + destruct (process_item_bad flow item self Hok) as (e & He).
      rewrite He. exists (Raise e). rewrite with_calls_nil. split; [reflexivity|].
      discriminate.
Qed.

Lemma accepted_all items : forallb item_ok items = true -> accepted items = items.
Proof.
  induction items as [|item items IH]; simpl; [reflexivity|].
  destruct (item_ok item); [|discriminate]. simpl. intros H. now rewrite IH.
Qed.

Lemma accepted_prefix good bad rest :
  forallb item_ok good = true -> item_ok bad = false ->
  accepted (good ++ bad :: rest) = good.
Proof.
  induction good as [|item good IH]; simpl; intros Hg Hb.
  - now rewrite Hb.
  - destruct (item_ok item); [|discriminate]. simpl in Hg. now rewrite IH.
Qed.

Lemma bump_get_eq k d : dict_get k (bump k d) = Some (dict_get_or k 0 d + 1).
Proof. apply dict_get_set_eq. Qed.

Lemma bump_get_ne k k' d : k <> k' -> dict_get k' (bump k d) = dict_get k' d.
Proof. apply dict_get_set_ne. Qed.

Lemma bump_monotone k k' n d :
  dict_get k d = Some n ->
  exists m, dict_get k (bump k' d) = Some m /\ n <= m.
Proof.
  intros Hn. destruct (String.eqb_spec k' k) as [->|Hne].
  - rewrite bump_get_eq. unfold dict_get_or. rewrite Hn.
    exists (n + 1). split; [reflexivity | lia].
  - rewrite (bump_get_ne _ _ _ Hne). exists n. split; [exact Hn | lia].
Qed.

Section with_decoder.
Variable loads : string -> option value.

(** The [try] statement changes nothing but the calls, to which it only
    appends. *)
Lemma inspect_graphql_appends flow self :
  exists o records, inspect_graphql loads flow self = (o, with_calls self records).
Proof.
  unfold inspect_graphql. run_stmt.
  destruct (request_get_text flow) as [content|e].
  2:{ exists (Raise e), []. now rewrite with_calls_nil. }
  destruct (content_truthy content) as [text|].
  2:{ exists (Return tt), []. now rewrite with_calls_nil. }
  unfold json_loads_call. destruct (loads text) as [data|].
  2:{ exists (Raise JSONDecodeError), []. now rewrite with_calls_nil. }
  assert (Hsingle : forall item, exists o records,
             _process_graphql_item flow item self = (o, with_calls self records)).
  { intros item. destruct (item_ok item) eqn:Hok.
    - rewrite (process_item_ok _ _ _ Hok). eauto.
    - destruct (process_item_bad flow item self Hok) as (e & ->).
      exists (Raise e), []. now rewrite with_calls_nil. }
  destruct data; try apply Hsingle.
  destruct (for_each_items flow l self) as (o & Ho & _). eauto.
Qed.

(** [response] always ends normally, with both tallies updated and records
    appended. *)
Lemma response_shape flow self :
  exists records,
    response loads flow self = (Return tt, with_calls (tallied flow self) records).
Proof.
  unfold response. run_stmt. fold (tallied flow self).
  destruct (str_contains "/graphql" (request_path flow)).
  - unfold try_except.
    destruct (inspect_graphql_appends flow (tallied flow self)) as (o & records & ->).
    exists records. destruct o as [[]|e]; reflexivity.
  - exists []. now rewrite with_calls_nil.
Qed.

(** On a path without ["/graphql"] only the tallies change. *)
Lemma response_plain flow self :
  str_contains "/graphql" (request_path flow) = false ->
  response loads flow self = (Return tt, tallied flow self).
Proof. intros H. unfold response. run_stmt. now rewrite H. Qed.

(** On a ["/graphql"] path with a body that decodes to a list, the records
    of the accepted items are appended. *)
Lemma response_batch flow self text items :
  str_contains "/graphql" (request_path flow) = true ->
  request_get_text flow = Return (Some text) ->
  text <> EmptyString ->
  loads text = Some (VList items) ->
  response loads flow self
  = (Return tt,
     with_calls (tallied flow self) (map (record_of flow) (accepted items))).
Proof.
  intros Hpath Htext Hne Hloads. unfold response. run_stmt.
  fold (tallied flow self). rewrite Hpath.
  unfold try_except, inspect_graphql. run_stmt. rewrite Htext. simpl.
  destruct (String.eqb_spec text EmptyString) as [E|_]; [contradiction|].
  unfold json_loads_call. rewrite Hloads.
  destruct (for_each_items flow items (tallied flow self)) as (o & -> & _).
  destruct o as [[]|e]; reflexivity.
Qed.

(** **** Tallies *)

Lemma deliver_snoc flows flow self :
  deliver loads (flows ++ [flow]) self
  = snd (response loads flow (deliver loads flows self)).
Proof. unfold deliver. now rewrite fold_left_app. Qed.

Lemma deliver_cons flow flows self :
  deliver loads (flow :: flows) self
  = deliver loads flows (snd (response loads flow self)).
Proof. reflexivity. Qed.

Lemma response_endpoints flow self :
  endpoints (snd (response loads flow self))
  = bump (endpoint_key flow) (endpoints self).
Proof. destruct (response_shape flow self) as (records & ->). reflexivity. Qed.

Lemma response_hosts flow self :
  hosts (snd (response loads flow self))
  = bump (request_pretty_host flow) (hosts self).
Proof. destruct (response_shape flow self) as (records & ->). reflexivity. Qed.

Lemma response_output_path flow self :
  output_path (snd (response loads flow self)) = output_path self.
Proof. destruct (response_shape flow self) as (records & ->). reflexivity. Qed.

Lemma deliver_output_path flows self :
  output_path (deliver loads flows self) = output_path self.
Proof.
  revert self. induction flows as [|flow flows IH]; intros self; [reflexivity|].
  rewrite deliver_cons, IH. apply response_output_path.
Qed.

Lemma deliver_NoDup flows self :
  NoDup (dict_keys (endpoints self)) -> NoDup (dict_keys (hosts self)) ->
  NoDup (dict_keys (endpoints (deliver loads flows self)))
  /\ NoDup (dict_keys (hosts (deliver loads flows self))).
Proof.
  revert self. induction flows as [|flow flows IH]; intros self He Hh.
  - now split.
  - rewrite deliver_cons. apply IH.
    + rewrite response_endpoints. now apply dict_set_NoDup.
    + rewrite response_hosts. now apply dict_set_NoDup.
Qed.

Lemma deliver_repeat_endpoints flow n self :
  dict_get_or (endpoint_key flow) 0
    (endpoints (deliver loads (repeat flow n) self))
  = dict_get_or (endpoint_key flow) 0 (endpoints self) + n.
Proof.
  revert self. induction n as [|n IH]; intros self; simpl repeat.
  - simpl. lia.
  - rewrite deliver_cons, IH, response_endpoints.
    unfold dict_get_or at 1. rewrite bump_get_eq. lia.
Qed.

Lemma deliver_repeat_hosts flow n self :
  dict_get_or (request_pretty_host flow) 0
    (hosts (deliver loads (repeat flow n) self))
  = dict_get_or (request_pretty_host flow) 0 (hosts self) + n.
Proof.
  revert self. induction n as [|n IH]; intros self; simpl repeat.
  - simpl. lia.
  - rewrite deliver_cons, IH, response_hosts.
    unfold dict_get_or at 1. rewrite bump_get_eq. lia.
Qed.

End with_decoder.

(** **** Sorting the items of a tally *)

#[local] Instance item_le_total : Total item_le.
Proof.
  intros a b. unfold item_le. rewrite (String.compare_antisym (fst a) (fst b)).
  destruct (String.compare (fst b) (fst a)); simpl; [lia | tauto | tauto].
Qed.

#[local] Instance str_lt_trans : Transitive str_lt.
Proof.
  intros a b c Hab Hbc. unfold str_lt in *.
  apply String_as_OT.cmp_lt. apply String_as_OT.cmp_lt in Hab, Hbc.
  eapply String_as_OT.lt_trans; eassumption.
Qed.

Lemma sorted_items_keys (items : list (string * nat)) :
  Sorted item_le items -> NoDup (map fst items) ->
  Sorted str_lt (map fst items).
Proof.
  induction items as [|a items IH]; intros Hs Hnd; simpl; [constructor|].
  apply Sorted_inv in Hs as [Hs Hhd].
  apply NoDup_cons in Hnd as [Ha Hnd].
  constructor; [now apply IH|].
  destruct items as [|b items]; simpl; constructor.
  apply HdRel_inv in Hhd. unfold item_le in Hhd. unfold str_lt.
  destruct (String.compare (fst a) (fst b)) eqn:E; [|reflexivity|contradiction].
  exfalso. apply Ha. apply String.compare_eq_iff in E. rewrite E. simpl.
  apply list_elem_of_here.
Qed.

(** [dict(sorted(d.items()))] holds the entries of [d], its keys in
    increasing order. *)
Lemma sorted_dict (d : dict nat) :
  NoDup (dict_keys d) ->
  StronglySorted str_lt (dict_keys (dict_of_items (sorted (dict_items d))))
  /\ forall k, dict_get k (dict_of_items (sorted (dict_items d))) = dict_get k d.
Proof.
  intros Hnd. unfold sorted, dict_items.
  assert (Hp : Permutation (merge_sort item_le d) d)
    by apply merge_sort_Permutation.
  assert (Hnd' : NoDup (map fst (merge_sort item_le d))).
  { rewrite Hp. exact Hnd. }
  rewrite (dict_of_items_NoDup _ Hnd'). split.
  - apply Sorted_StronglySorted; [apply str_lt_trans|].
    apply sorted_items_keys; [|exact Hnd'].
    apply (Sorted_merge_sort item_le).
  - intros k. apply dict_get_Permutation; assumption.
Qed.

End FlowSummarizerFacts.

(** ** The flow summarizer *)

Module FlowSummarizerSpec.
Import Py PyFacts flow_extractor FlowSummarizerFacts.

(** C1, as stated, fails.  The body of [batch_with_null_persisted] is a JSON
    array of two objects on a ["/graphql"] path; its second object has
    [null] under [extensions.persistedQuery], [None.get] raises, and
    [response] appends one record, not two. *)
Lemma batch_of_objects_may_append_fewer :
  let flow := batch_with_null_persisted in
  let self := __init__ ∅ in
  exists text items,
    str_contains "/graphql" (request_path flow) = true
    /\ request_get_text flow = Return (Some text)
    /\ Json.decode text = Some (VList items)
    /\ forallb is_dict items = true
    /\ length items = 2
    /\ graphql_calls (snd (response Json.decode flow self)) = [home_record]
    /\ graphql_calls (snd (response Json.decode flow self))
       <> graphql_calls self ++ map (record_of flow) items.
Proof.
  eexists _, _. split; [reflexivity|]. split; [reflexivity|].
  split; [vm_compute; reflexivity|].
  split; [reflexivity|]. split; [reflexivity|].
  split; [vm_compute; reflexivity|].
  vm_compute. intros H. discriminate H.
Qed.

(** C1, amended.  On a path that contains ["/graphql"], with a body that
    decodes to an array of k objects each of which the extraction gets
    through ([item_ok]: its [extensions] is falsy, or a str or list without
    ["persistedQuery"], or a dict without that key or with a dict under
    it), one call to [response] appends exactly k records in array order;
    each holds the item's [operationName], [variables] and nested hash
    ([None] when absent) with the host and path of the flow. *)
Theorem batch_appends_one_record_per_item
    (loads : string -> option value) flow self text items :
  loads EmptyString = None ->
  str_contains "/graphql" (request_path flow) = true ->
  request_get_text flow = Return (Some text) ->
  loads text = Some (VList items) ->
  forallb item_ok items = true ->
  fst (response loads flow self) = Return tt
  /\ graphql_calls (snd (response loads flow self))
     = graphql_calls self ++ map (record_of flow) items
  /\ length (graphql_calls (snd (response loads flow self)))
     = length (graphql_calls self) + length items.
Proof.
  intros Hempty Hpath Htext Hloads Hok.
  assert (Hne : text <> EmptyString) by (intros ->; congruence).
  rewrite (response_batch loads flow self text items Hpath Htext Hne Hloads).
  rewrite (accepted_all items Hok). simpl.
  repeat split. now rewrite length_app, length_map.
Qed.

Lemma batch_appends_one_record_per_item_witness :
  let items := [cart_value; home_value] in
  (exists text,
     request_get_text batch_of_two = Return (Some text)
     /\ Json.decode text = Some (VList items))
  /\ forallb item_ok items = true
  /\ graphql_calls (snd (response Json.decode batch_of_two used_state))
     = [home_record; cart_record; home_record].
Proof.
  intros items. split; [|split].
  - eexists. split; [reflexivity | vm_compute; reflexivity].
  - reflexivity.
  - refine (proj1 (proj2 (batch_appends_one_record_per_item
              Json.decode batch_of_two used_state _ items _ _ _ _ _))).
    + reflexivity.
    + reflexivity.
    + reflexivity.
    + vm_compute. reflexivity.
    + reflexivity.
Defined.

(** C2.  Whatever the flow and its body, [response] ends normally, and the
    two tallies are incremented for the flow: after the call the host tally
    holds at the flow's host one more than [hosts.get(host, 0)] before, the
    endpoint tally holds at the key [METHOD URL] one more than
    [endpoints.get(key, 0)] before, and every other entry is as before.
    The body has no part in them: with any other body the tallies come out
    the same. *)
Theorem response_never_raises (loads : string -> option value) flow self :
  fst (response loads flow self) = Return tt
  /\ endpoint_key flow = request_method flow +:+ " " +:+ request_url flow
  /\ dict_get (request_pretty_host flow) (hosts (snd (response loads flow self)))
     = Some (dict_get_or (request_pretty_host flow) 0 (hosts self) + 1)
  /\ dict_get (endpoint_key flow) (endpoints (snd (response loads flow self)))
     = Some (dict_get_or (endpoint_key flow) 0 (endpoints self) + 1)
  /\ (forall h,
        dict_get h (hosts (snd (response loads flow self)))
        = if String.eqb (request_pretty_host flow) h
          then Some (dict_get_or h 0 (hosts self) + 1)
          else dict_get h (hosts self))
  /\ (forall k,
        dict_get k (endpoints (snd (response loads flow self)))
        = if String.eqb (endpoint_key flow) k
          then Some (dict_get_or k 0 (endpoints self) + 1)
          else dict_get k (endpoints self))
  /\ hosts (snd (response loads flow self))
     = bump (request_pretty_host flow) (hosts self)
  /\ endpoints (snd (response loads flow self))
     = bump (endpoint_key flow) (endpoints self)
  /\ forall body,
       fst (response loads (with_text flow body) self) = Return tt
       /\ hosts (snd (response loads (with_text flow body) self))
          = hosts (snd (response loads flow self))
       /\ endpoints (snd (response loads (with_text flow body) self))
          = endpoints (snd (response loads flow self)).
Proof.
  assert (Hget : forall k k' d,
            dict_get k (bump k' d)
            = if String.eqb k' k then Some (dict_get_or k 0 d + 1)
              else dict_get k d).
  { intros k k' d. destruct (String.eqb_spec k' k) as [->|Hne].
    - apply bump_get_eq.
    - now apply bump_get_ne. }
  split; [|split; [|split; [|split; [|split; [|split; [|split; [|split]]]]]]].
  - destruct (response_shape loads flow self) as (records & ->). reflexivity.
  - reflexivity.
  - rewrite response_hosts. apply bump_get_eq.
  - rewrite response_endpoints. apply bump_get_eq.
  - intros h. rewrite response_hosts. apply Hget.
  - intros k. rewrite response_endpoints. apply Hget.
  - apply response_hosts.
  - apply response_endpoints.
  - intros body. split; [|split].
    + destruct (response_shape loads (with_text flow body) self) as (r & ->).
      reflexivity.
    + now rewrite !response_hosts.
    + now rewrite !response_endpoints.
Qed.

(** C5.  Through a call to [response] every count of the endpoint and host
    tallies stays or grows, and the calls before are a prefix of the calls
    after. *)
Theorem response_monotone (loads : string -> option value) flow self :
  (forall k n, dict_get k (endpoints self) = Some n ->
     exists m, dict_get k (endpoints (snd (response loads flow self))) = Some m
               /\ n <= m)
  /\ (forall h n, dict_get h (hosts self) = Some n ->
     exists m, dict_get h (hosts (snd (response loads flow self))) = Some m
               /\ n <= m)
  /\ graphql_calls self `prefix_of` graphql_calls (snd (response loads flow self)).
Proof.
  split; [|split].
  - intros k n Hn. rewrite response_endpoints. now apply bump_monotone.
  - intros h n Hn. rewrite response_hosts. now apply bump_monotone.
  - destruct (response_shape loads flow self) as (records & ->).
    exists records. reflexivity.
Qed.

Lemma response_monotone_witness :
  dict_get "GET http://a/x" (endpoints used_state) = Some 2
  /\ exists m,
       dict_get "GET http://a/x"
         (endpoints (snd (response Json.decode batch_of_two used_state)))
       = Some m
       /\ 2 <= m.
Proof.
  split; [reflexivity|].
  apply (proj1 (response_monotone Json.decode batch_of_two used_state)
           "GET http://a/x" 2).
  reflexivity.
Defined.

(** C7.  On a path without ["/graphql"], [response] leaves the calls and the
    output path as they are and changes the endpoint tally at the flow's
    ["METHOD URL"] key only and the host tally at the flow's host only. *)
Theorem response_frame_non_graphql (loads : string -> option value) flow self :
  str_contains "/graphql" (request_path flow) = false ->
  graphql_calls (snd (response loads flow self)) = graphql_calls self
  /\ output_path (snd (response loads flow self)) = output_path self
  /\ (forall k, k <> endpoint_key flow ->
        dict_get k (endpoints (snd (response loads flow self)))
        = dict_get k (endpoints self))
  /\ (forall h, h <> request_pretty_host flow ->
        dict_get h (hosts (snd (response loads flow self)))
        = dict_get h (hosts self))
  /\ dict_get (endpoint_key flow) (endpoints (snd (response loads flow self)))
     = Some (dict_get_or (endpoint_key flow) 0 (endpoints self) + 1)
  /\ dict_get (request_pretty_host flow) (hosts (snd (response loads flow self)))
     = Some (dict_get_or (request_pretty_host flow) 0 (hosts self) + 1).
Proof.
  intros Hpath. rewrite (response_plain loads flow self Hpath). simpl.
  repeat split.
  - intros k Hk. apply bump_get_ne. congruence.
  - intros h Hh. apply bump_get_ne. congruence.
  - apply bump_get_eq.
  - apply bump_get_eq.
Qed.

Lemma response_frame_non_graphql_witness :
  str_contains "/graphql" (request_path post_b_y) = false
  /\ graphql_calls (snd (response Json.decode post_b_y used_state))
     = [home_record]
  /\ output_path (snd (response Json.decode post_b_y used_state)) = "out.json".
Proof.
  split; [reflexivity|].
  pose proof (response_frame_non_graphql Json.decode post_b_y used_state
                eq_refl) as (Hcalls & Hpath & _).
  split; [exact Hcalls | exact Hpath].
Defined.

(** C10.  A batch is not extracted as a whole.  When the body decodes to an
    array whose item at some index is one the extraction stops at (any item
    that is not an object is one), [response] appends the records of the
    items before it, nothing for it or the items after it, and ends
    normally; the flow [batch_with_number] contributes one record of a batch
    of three. *)
Theorem batch_stops_at_malformed_item :
  (forall (loads : string -> option value) flow self text good bad rest,
     loads EmptyString = None ->
     str_contains "/graphql" (request_path flow) = true ->
     request_get_text flow = Return (Some text) ->
     loads text = Some (VList (good ++ bad :: rest)) ->
     forallb item_ok good = true ->
     item_ok bad = false ->
     fst (response loads flow self) = Return tt
     /\ graphql_calls (snd (response loads flow self))
        = graphql_calls self ++ map (record_of flow) good)
  /\ (forall item, is_dict item = false -> item_ok item = false)
  /\ (exists text first rest,
        request_get_text batch_with_number = Return (Some text)
        /\ Json.decode text = Some (VList (first :: VInt 7 :: rest))
        /\ length (first :: VInt 7 :: rest) = 3
        /\ response Json.decode batch_with_number (__init__ ∅)
           = (Return tt,
              with_calls (tallied batch_with_number (__init__ ∅))
                [cart_record])).
Proof.
  split; [|split].
  - intros loads flow self text good bad rest Hempty Hpath Htext Hloads Hg Hb.
    assert (Hne : text <> EmptyString) by (intros ->; congruence).
    rewrite (response_batch loads flow self text _ Hpath Htext Hne Hloads).
    rewrite (accepted_prefix good bad rest Hg Hb). split; reflexivity.
  - intros item Hd. destruct item; try reflexivity. discriminate Hd.
  - eexists _, _, _. split; [reflexivity|].
    split; [vm_compute; reflexivity|].
    split; [reflexivity|]. vm_compute. reflexivity.
Qed.

Lemma batch_stops_at_malformed_item_witness :
  (exists text,
     request_get_text batch_with_number = Return (Some text)
     /\ Json.decode text
        = Some (VList ([cart_value] ++ VInt 7 :: [home_value])))
  /\ forallb item_ok [cart_value] = true
  /\ item_ok (VInt 7) = false
  /\ graphql_calls (snd (response Json.decode batch_with_number used_state))
     = [home_record; cart_record].
Proof.
  split; [|split; [|split]].
  - eexists. split; [reflexivity | vm_compute; reflexivity].
  - reflexivity.
  - reflexivity.
  - refine (proj2 (proj1 batch_stops_at_malformed_item
              Json.decode batch_with_number used_state _
              [cart_value] (VInt 7) [home_value] _ _ _ _ _ _)).
    + reflexivity.
    + reflexivity.
    + reflexivity.
    + vm_compute. reflexivity.
    + reflexivity.
    + reflexivity.
Defined.

(** C4.  Three flows [GET http://a/x], [GET http://a/x], [POST http://b/y]
    give [hosts = {a: 2, b: 1}] and
    [endpoints = {GET http://a/x: 2, POST http://b/y: 1}]; N deliveries of
    one flow add N to the tally at its ["METHOD URL"] key and at its host,
    so from a new object the tally there is N. *)
Theorem tallies_count_requests :
  (forall loads : string -> option value,
     hosts (deliver loads [get_a_x; get_a_x; post_b_y] (__init__ ∅))
     = [("a", 2); ("b", 1)]
     /\ endpoints (deliver loads [get_a_x; get_a_x; post_b_y] (__init__ ∅))
        = [("GET http://a/x", 2); ("POST http://b/y", 1)])
  /\ (forall (loads : string -> option value) flow self N,
        dict_get_or (endpoint_key flow) 0
          (endpoints (deliver loads (repeat flow N) self))
        = dict_get_or (endpoint_key flow) 0 (endpoints self) + N
        /\ dict_get_or (request_pretty_host flow) 0
             (hosts (deliver loads (repeat flow N) self))
           = dict_get_or (request_pretty_host flow) 0 (hosts self) + N)
  /\ (forall (loads : string -> option value) flow environ n,
        dict_get (endpoint_key flow)
          (endpoints (deliver loads (repeat flow (S n)) (__init__ environ)))
        = Some (S n)
        /\ dict_get (request_pretty_host flow)
             (hosts (deliver loads (repeat flow (S n)) (__init__ environ)))
           = Some (S n)).
Proof.
  split; [|split].
  - intros loads. split; reflexivity.
  - intros loads flow self N. split.
    + apply deliver_repeat_endpoints.
    + apply deliver_repeat_hosts.
  - intros loads flow environ n.
    pose proof (deliver_repeat_endpoints loads flow (S n) (__init__ environ)) as He.
    pose proof (deliver_repeat_hosts loads flow (S n) (__init__ environ)) as Hh.
    unfold dict_get_or in He, Hh. simpl dict_get in He, Hh.
    split.
    + destruct (dict_get (endpoint_key flow) _) as [m|]; [f_equal|]; lia.
    + destruct (dict_get (request_pretty_host flow) _) as [m|]; [f_equal|]; lia.
Qed.

(** C3.  After any sequence of [response] calls on a new object, [done]
    leaves at the output path, whatever was there before, a summary whose
    [endpoints] and [hosts] hold the entries of the tallies with keys in
    increasing order and whose [graphql_calls] are the accumulated calls in
    the order observed; no other path is written; the output path is the
    value of [SUMMARY_OUTPUT_PATH], or ["summary.json"] without it. *)
Theorem done_writes_sorted_summary
    (loads : string -> option value) (environ : gmap string string)
    (flows : list HTTPFlow) (files : gmap string summary) :
  let self := deliver loads flows (__init__ environ) in
  output_path self = default "summary.json" (environ !! "SUMMARY_OUTPUT_PATH")
  /\ (forall p, p <> output_path self -> done self files !! p = files !! p)
  /\ exists doc,
       done self files !! output_path self = Some doc
       /\ StronglySorted str_lt (dict_keys (summary_endpoints doc))
       /\ StronglySorted str_lt (dict_keys (summary_hosts doc))
       /\ (forall k, dict_get k (summary_endpoints doc)
                     = dict_get k (endpoints self))
       /\ (forall h, dict_get h (summary_hosts doc) = dict_get h (hosts self))
       /\ summary_graphql_calls doc = graphql_calls self.
Proof.
  intros self. split; [|split].
  - unfold self. now rewrite deliver_output_path.
  - intros p Hp. unfold done. now rewrite lookup_insert_ne.
  - exists (make_summary self). unfold done. rewrite lookup_insert_eq.
    destruct (deliver_NoDup loads flows (__init__ environ)) as [He Hh];
      [constructor | constructor |].
    fold self in He, Hh.
    destruct (sorted_dict (endpoints self) He) as [Hse Hge].
    destruct (sorted_dict (hosts self) Hh) as [Hsh Hgh].
    repeat split; assumption.
Qed.

End FlowSummarizerSpec.

(** ** Facts about the log inspector *)

Module LogInspectorFacts.
Import Py PyFacts analyze_logs.

Lemma emit_nil c : emit c [] = c.
Proof. destruct c. unfold emit. simpl. now rewrite app_nil_r. Qed.

Lemma emit_emit c out1 out2 : emit (emit c out1) out2 = emit c (out1 ++ out2).
Proof. unfold emit. simpl. now rewrite app_assoc. Qed.

Lemma print_emit p c : print p c = (Return tt, emit c [p]).
Proof. reflexivity. Qed.

Lemma print_fields items c :
  for_each items (fun item => print (describe_field item)) c
  = (Return tt, emit c (map describe_field items)).
Proof.
  revert c. induction items as [|item items IH]; intros c; simpl.
  - now rewrite emit_nil.
  - unfold mbind, M_bind. rewrite print_emit, IH, emit_emit. reflexivity.
Qed.

(** A component that is a dict prints its typename line and one line for
    each of its fields. *)
Lemma print_component_dict i comp c :
  is_dict comp = true ->
  print_component i comp c = (Return tt, emit c (component_output (i, comp))).
Proof.
  destruct comp as [| | | | | |d]; try discriminate. intros _.
  unfold print_component, component_output. run_stmt.
  change (for_each d (fun item => print (describe_field item))
            (emit c [Component (i + 1) (dict_get_or "__typename" (VStr "Unknown") d)])
          = (Return tt,
             emit c (Component (i + 1) (dict_get_or "__typename" (VStr "Unknown") d)
                     :: map describe_field d))).
  rewrite print_fields, emit_emit. reflexivity.
Qed.

(** Any other component raises before it prints. *)
Lemma print_component_other i comp c :
  is_dict comp = false -> print_component i comp c = (Raise AttributeError, c).
Proof. destruct comp; try reflexivity. discriminate. Qed.

Lemma print_all_components comps start c :
  forallb is_dict comps = true ->
  for_each (enumerate_from start comps)
    (fun ic => print_component (fst ic) (snd ic)) c
  = (Return tt, emit c (flat_map component_output (enumerate_from start comps))).
Proof.
  revert start c. induction comps as [|comp comps IH]; intros start c; simpl.
  - intros _. now rewrite emit_nil.
  - intros H. apply andb_prop in H as [Hd Hrest].
    unfold mbind, M_bind. rewrite (print_component_dict _ _ _ Hd).
    rewrite (IH _ _ Hrest), emit_emit. reflexivity.
Qed.

Lemma component_output_clean ic : ~ In DecodeFailed (component_output ic).
Proof.
  unfold component_output. intros [H|H]; [discriminate|].
  apply in_map_iff in H as (item & Hitem & _).
  unfold describe_field in Hitem. destruct (snd item); discriminate.
Qed.

Lemma print_some_components comps start c :
  existsb (fun comp => negb (is_dict comp)) comps = true ->
  exists out,
    for_each (enumerate_from start comps)
      (fun ic => print_component (fst ic) (snd ic)) c
    = (Raise AttributeError, emit c out)
    /\ ~ In DecodeFailed out.
Proof.
  revert start c. induction comps as [|comp comps IH]; intros start c; simpl.
  - discriminate.
  - unfold mbind, M_bind. destruct (is_dict comp) eqn:Hd; simpl.
    + intros H. rewrite (print_component_dict _ _ _ Hd).
      destruct (IH (S start) (emit c (component_output (start, comp))) H)
        as (out & -> & Hclean).
      exists (component_output (start, comp) ++ out).
      rewrite emit_emit. split; [reflexivity|].
      intros Hin. apply in_app_or in Hin as [Hin|Hin]; [|tauto].
      now apply component_output_clean in Hin.
    + intros _. rewrite (print_component_other _ _ _ Hd).
      exists []. rewrite emit_nil. split; [reflexivity | intros []].
Qed.

(** The summary of a payload with the whole path present and a list of
    dicts at its end. *)
Lemma print_components_ok data comps c :
  visual_components data = Some (VList comps) ->
  forallb is_dict comps = true ->
  print_components data c
  = (Return tt,
     emit c (Found (length comps) :: flat_map component_output (enumerate comps))).
Proof.
  intros Hv Hd. unfold visual_components in Hv.
  destruct data as [| | | | | |d0]; try discriminate.
  destruct (dict_get "data" d0) as [[| | | | | |d1]|] eqn:E0; try discriminate.
  destruct (dict_get "nativeEntryPoint" d1) as [[| | | | | |d2]|] eqn:E1;
    try discriminate.
  unfold print_components. run_stmt.
  unfold dict_get_or. rewrite E0. simpl.
  unfold dict_get_or. rewrite E1. simpl.
  unfold dict_get_or. rewrite Hv. simpl.
  change (for_each (enumerate comps)
            (fun ic => print_component (fst ic) (snd ic))
            (emit c [Found (length comps)])
          = (Return tt,
             emit c (Found (length comps)
                     :: flat_map component_output (enumerate comps)))).
  unfold enumerate. rewrite (print_all_components _ _ _ Hd), emit_emit.
  reflexivity.
Qed.

(** The summary of a bad payload raises an exception other than
    [JSONDecodeError]. *)
Lemma print_components_bad data c :
  bad_payload data = true ->
  exists e out,
    print_components data c = (Raise e, emit c out)
    /\ (e = AttributeError \/ e = TypeError)
    /\ ~ In DecodeFailed out.
Proof.
  assert (Hnone : forall e, e = AttributeError \/ e = TypeError ->
            exists e' out, (Raise e : outcome unit, c) = (Raise e', emit c out)
              /\ (e' = AttributeError \/ e' = TypeError)
              /\ ~ In DecodeFailed out).
  { intros e He. exists e, []. rewrite emit_nil. repeat split; auto. }
  unfold bad_payload.
  destruct data as [| | | | | |d0]; try discriminate.
  unfold print_components. run_stmt.
  destruct (dict_get "data" d0) as [top|] eqn:E0; [|discriminate].
  unfold dict_get_or. rewrite E0.
  destruct top as [| | | | | |d1]; simpl; try (intros _; apply Hnone; auto).
  destruct (dict_get "nativeEntryPoint" d1) as [entry|] eqn:E1; [|discriminate].
  unfold dict_get_or. rewrite E1.
  destruct entry as [| | | | | |d2]; simpl; try (intros _; apply Hnone; auto).
  destruct (dict_get "visualComponents" d2) as [v|] eqn:E2; [|discriminate].
  unfold dict_get_or. rewrite E2.
  destruct v as [|b|z|f|s|l|d]; simpl; try (intros _; apply Hnone; auto).
  - destruct s as [|ch s]; [discriminate|]. intros _. simpl.
    exists AttributeError, [Found (S (String.length s))].
    repeat split; auto. intros [H|[]]. discriminate.
  - intros Hbad.
    destruct (print_some_components l 0 (emit c [Found (length l)]) Hbad)
      as (out & Hout & Hclean).
    exists AttributeError, (Found (length l) :: out).
    split; [|split; auto].
    + unfold enumerate. etransitivity; [exact Hout|]. now rewrite emit_emit.
    + intros [H|H]; [discriminate | tauto].
  - destruct d as [|kv d]; [discriminate|]. intros _. simpl.
    exists AttributeError, [Found (S (length d))].
    repeat split; auto. intros [H|[]]. discriminate.
Qed.

Section with_decoder.
Variable loads : string -> option value.

(** The loop stops at the first line with the marker and hands it to the
    [try] statement. *)
Lemma scan_first_marker lines n line c :
  first_marker_line lines = Some (n, line) ->
  scan loads lines c
  = (text ← eval (after_response line); report loads (str_strip text))
      (advance c (S n)).
Proof.
  revert n c. induction lines as [|l lines IH]; intros n c; simpl; [discriminate|].
  unfold mbind at 1, M_bind at 1. simpl.
  destruct (str_contains marker l).
  - intros [= <- <-]. unfold advance. simpl.
    rewrite Nat.add_1_r. reflexivity.
  - destruct (first_marker_line lines) as [[m l']|]; [|discriminate].
    intros [= <- <-]. rewrite (IH m _ eq_refl). unfold advance. simpl.
    rewrite !Nat.add_succ_r. reflexivity.
Qed.

Lemma scan_no_marker lines c :
  Forall (fun line => str_contains marker line = false) lines ->
  scan loads lines c = (Return tt, advance c (length lines)).
Proof.
  intros H. revert c. induction H as [|l lines Hl _ IH]; intros c; simpl.
  - unfold advance. destruct c. simpl. now rewrite Nat.add_0_r.
  - unfold mbind at 1, M_bind at 1. simpl. rewrite Hl, IH. unfold advance. simpl.
    rewrite !Nat.add_succ_r. reflexivity.
Qed.

End with_decoder.

Lemma typename_lines_components (ics : list (nat * value)) :
  typename_lines (flat_map component_output ics) = length ics.
Proof.
  unfold typename_lines. induction ics as [|ic ics IH]; simpl; [reflexivity|].
  rewrite List.filter_app, length_app, IH. f_equal.
  induction (fields (snd ic)) as [|item items IHi]; simpl; [reflexivity|].
  unfold describe_field at 1. destruct (snd item); simpl; exact IHi.
Qed.

Lemma description_lines_components (ics : list (nat * value)) :
  description_lines (flat_map component_output ics)
  = list_sum (map (fun ic => length (fields (snd ic))) ics).
Proof.
  unfold description_lines. induction ics as [|ic ics IH]; simpl; [reflexivity|].
  rewrite List.filter_app, length_app, IH. f_equal.
  induction (fields (snd ic)) as [|item items IHi]; simpl; [reflexivity|].
  unfold describe_field at 1. destruct (snd item); simpl; now rewrite IHi.
Qed.

Lemma enumerate_from_snd {A} (xs : list A) start :
  map snd (enumerate_from start xs) = xs.
Proof.
  revert start. induction xs as [|x xs IH]; intros start; simpl; [reflexivity|].
  now rewrite IH.
Qed.

End LogInspectorFacts.

(** ** The log inspector *)

Module LogInspectorSpec.
Import Py PyFacts analyze_logs LogInspectorFacts.

(** C8.  When no line of the file holds the marker, the script takes every
    line from the file, prints nothing and ends normally. *)
Theorem no_marker_no_output (loads : string -> option value) lines :
  Forall (fun line => str_contains marker line = false) lines ->
  main loads lines
  = (Return tt, {| stdout := []; lines_read := length lines |}).
Proof.
  intros H. unfold main. rewrite (scan_no_marker loads lines _ H). reflexivity.
Qed.

Lemma no_marker_no_output_witness :
  Forall (fun line => str_contains marker line = false) quiet_log
  /\ main Json.decode quiet_log = (Return tt, {| stdout := []; lines_read := 3 |}).
Proof.
  assert (H : Forall (fun line => str_contains marker line = false) quiet_log).
  { repeat constructor. }
  split; [exact H|].
  exact (no_marker_no_output Json.decode quiet_log H).
Defined.

(** C6, as stated, fails.  The marker line of [tag_only_log] holds one
    component whose only field is [__typename]; the script prints a
    description line for that field, where the claim counts one line for
    each field other than the tag, that is none. *)
Lemma tag_field_is_described :
  exists n line text data comps,
    first_marker_line tag_only_log = Some (n, line)
    /\ after_response line = Return text
    /\ Json.decode (str_strip text) = Some data
    /\ visual_components data = Some (VList comps)
    /\ forallb is_dict comps = true
    /\ stdout (snd (main Json.decode tag_only_log))
       = [Found 1; Component 1 (VStr "Banner");
          ScalarField "__typename" "Banner"]
    /\ description_lines (stdout (snd (main Json.decode tag_only_log)))
       <> list_sum (map (fun comp => length (other_fields comp)) comps).
Proof.
  eexists _, _, _, _, _.
  split; [reflexivity|]. split; [reflexivity|].
  split; [vm_compute; reflexivity|]. split; [reflexivity|].
  split; [reflexivity|]. split; [vm_compute; reflexivity|].
  vm_compute. intros H. discriminate H.
Qed.

(** C6, amended.  When the text after ["response: "] on the first marker
    line decodes to a payload whose list at
    [data.nativeEntryPoint.visualComponents] has N entries, all of them
    objects, the script reports N components and prints for each of them
    one typename line followed by one description line for every field,
    the [__typename] field included. *)
Theorem components_report
    (loads : string -> option value) lines n line text data comps :
  first_marker_line lines = Some (n, line) ->
  after_response line = Return text ->
  loads (str_strip text) = Some data ->
  visual_components data = Some (VList comps) ->
  forallb is_dict comps = true ->
  fst (main loads lines) = Return tt
  /\ stdout (snd (main loads lines))
     = Found (length comps) :: flat_map component_output (enumerate comps)
  /\ typename_lines (stdout (snd (main loads lines))) = length comps
  /\ description_lines (stdout (snd (main loads lines)))
     = list_sum (map (fun comp => length (fields comp)) comps).
Proof.
  intros Hline Htext Hloads Hv Hd. unfold main.
  rewrite (scan_first_marker loads lines n line _ Hline).
  unfold mbind, M_bind, eval. rewrite Htext.
  unfold report, try_except, mbind, M_bind, eval, json_loads_call.
  rewrite Hloads. rewrite (print_components_ok data comps _ Hv Hd). simpl.
  split; [reflexivity|]. split; [reflexivity|]. split.
  - change (typename_lines (flat_map component_output (enumerate comps))
            = length comps).
    rewrite typename_lines_components.
    rewrite <- (enumerate_from_snd comps 0) at 2. now rewrite length_map.
  - change (description_lines (flat_map component_output (enumerate comps))
            = list_sum (map (fun comp => length (fields comp)) comps)).
    rewrite description_lines_components.
    rewrite <- (enumerate_from_snd comps 0) at 2. now rewrite map_map.
Qed.

Lemma components_report_witness :
  let comps :=
    [VDict [("__typename", VStr "Banner");
            ("items", VList [VInt 1; VInt 2]);
            ("id", VStr "b1")];
     VDict [("style", VDict [])]] in
  (exists n line text data,
     first_marker_line banner_log = Some (n, line)
     /\ after_response line = Return text
     /\ Json.decode (str_strip text) = Some data
     /\ visual_components data = Some (VList comps))
  /\ forallb is_dict comps = true
  /\ stdout (snd (main Json.decode banner_log))
     = [Found 2;
        Component 1 (VStr "Banner");
        ScalarField "__typename" "Banner";
        ListField "items" 2;
        ScalarField "id" "b1";
        Component 2 (VStr "Unknown");
        DictField "style"].
Proof.
  intros comps. split; [|split].
  - eexists _, _, _, _. split; [reflexivity|]. split; [reflexivity|].
    split; [vm_compute; reflexivity | reflexivity].
  - reflexivity.
  - refine (proj1 (proj2 (components_report Json.decode banner_log
              _ _ _ _ comps _ _ _ _ _))).
    + reflexivity.
    + reflexivity.
    + vm_compute. reflexivity.
    + reflexivity.
    + reflexivity.
Defined.

(** C9, as stated, fails.  In [empty_string_log] the field
    [visualComponents] is present with the empty string, which is not a
    dict; the payload decodes, [len] of it is 0, and the script prints
    ["Found 0 components:"] and ends normally. *)
Lemma empty_components_string_is_accepted :
  exists n line text data,
    first_marker_line empty_string_log = Some (n, line)
    /\ after_response line = Return text
    /\ Json.decode (str_strip text) = Some data
    /\ visual_components data = Some (VStr EmptyString)
    /\ is_dict (VStr EmptyString) = false
    /\ main Json.decode empty_string_log
       = (Return tt, {| stdout := [Found 0]; lines_read := 1 |}).
Proof.
  eexists _, _, _, _.
  split; [reflexivity|]. split; [reflexivity|].
  split; [vm_compute; reflexivity|]. split; [reflexivity|].
  split; [reflexivity|]. vm_compute. reflexivity.
Qed.

(** C9, amended.  The [try] statement catches [JSONDecodeError] only.  When
    the payload of the first marker line decodes and [data] or
    [nativeEntryPoint] is present with a value that is not a dict, or
    [visualComponents] is present with a value without a length (null, a
    number, a boolean), with a str or dict that is not empty, or with a list
    that has an entry that is not a dict, the script ends with an
    [AttributeError] or a [TypeError] that nothing catches, and prints no
    decode failure. *)
Theorem bad_payload_raises
    (loads : string -> option value) lines n line text data :
  first_marker_line lines = Some (n, line) ->
  after_response line = Return text ->
  loads (str_strip text) = Some data ->
  bad_payload data = true ->
  exists e,
    fst (main loads lines) = Raise e
    /\ (e = AttributeError \/ e = TypeError)
    /\ is_JSONDecodeError e = false
    /\ ~ In DecodeFailed (stdout (snd (main loads lines))).
Proof.
  intros Hline Htext Hloads Hbad. unfold main.
  rewrite (scan_first_marker loads lines n line _ Hline).
  unfold mbind, M_bind, eval. rewrite Htext.
  unfold report, try_except, mbind, M_bind, eval, json_loads_call.
  rewrite Hloads.
  destruct (print_components_bad data
              (advance {| stdout := []; lines_read := 0 |} (S n)) Hbad)
    as (e & out & -> & He & Hclean).
  assert (Hnot : is_JSONDecodeError e = false) by (destruct He; subst; reflexivity).
  rewrite Hnot. exists e. simpl. auto.
Qed.

Lemma bad_payload_raises_witness :
  (exists n line text data,
     first_marker_line null_entry_log = Some (n, line)
     /\ after_response line = Return text
     /\ Json.decode (str_strip text) = Some data
     /\ bad_payload data = true)
  /\ exists e,
       fst (main Json.decode null_entry_log) = Raise e
       /\ (e = AttributeError \/ e = TypeError)
       /\ is_JSONDecodeError e = false
       /\ ~ In DecodeFailed (stdout (snd (main Json.decode null_entry_log))).
Proof.
  split.
  - eexists _, _, _, _. split; [reflexivity|]. split; [reflexivity|].
    split; [vm_compute; reflexivity | reflexivity].
  - refine (bad_payload_raises Json.decode null_entry_log _ _ _
              (VDict [("data", VDict [("nativeEntryPoint",
                 VDict [("visualComponents",
                   VList [VDict [("__typename", VStr "Banner")]; VNone])])])])
              _ _ _ _).
    + reflexivity.
    + reflexivity.
    + vm_compute. reflexivity.
    + reflexivity.
Defined.

End LogInspectorSpec.

(** ** More facts about the flow summarizer *)

Module FlowSummarizerMoreFacts.
Import Py PyFacts flow_extractor FlowSummarizerFacts.

(** An item the extraction stops at raises one of two exceptions. *)
Lemma process_item_raises flow item self :
  item_ok item = false ->
  exists e, _process_graphql_item flow item self = (Raise e, self)
            /\ (e = AttributeError \/ e = TypeError).
Proof.
  destruct item as [| | | | | |d]; simpl;
    try (intros _; exists AttributeError; split; [reflexivity | now left]).
  unfold _process_graphql_item, extensions_ok, dict_get_or. run_stmt.
  destruct (dict_get "extensions" d) as [ext|]; [|discriminate].
  destruct ext as [|b|z|f|t|l|e]; simpl.
  - discriminate.
  - destruct b; [|discriminate]. intros _. exists TypeError. auto.
  - destruct (Z.eqb z 0); [discriminate|]. intros _. exists TypeError. auto.
  - destruct (float_is_zero f); [discriminate|]. intros _. exists TypeError. auto.
  - destruct (String.eqb t EmptyString); simpl; [discriminate|].
    destruct (str_contains "persistedQuery" t); [|discriminate].
    intros _. exists TypeError. auto.
  - destruct l as [|x l]; [discriminate|]. cbn [negb orb].
    destruct (existsb (str_eq_value "persistedQuery") (x :: l));
      [|discriminate].
    intros _. exists TypeError. auto.
  - destruct e as [|kv e]; [discriminate|]. cbn [negb orb].
    unfold dict_contains.
    destruct (dict_get "persistedQuery" (kv :: e)) as [p|]; [|discriminate].
    destruct p; simpl; try discriminate; intros _; exists AttributeError; auto.
Qed.

Lemma accepted_length items : length (accepted items) <= length items.
Proof.
  induction items as [|item items IH]; simpl; [lia|].
  destruct (item_ok item); simpl; lia.
Qed.

Lemma accepted_length_full items :
  length (accepted items) = length items <-> forallb item_ok items = true.
Proof.
  induction items as [|item items IH]; simpl; [tauto|].
  destruct (item_ok item); simpl.
  - rewrite <- IH. split; [intros [= H]; exact H | intros ->; reflexivity].
  - split; discriminate.
Qed.

(** **** Tallies *)

Lemma bump_get k k' d :
  dict_get k (bump k' d)
  = if String.eqb k' k then Some (dict_get_or k 0 d + 1) else dict_get k d.
Proof.
  destruct (String.eqb_spec k' k) as [->|Hne].
  - apply bump_get_eq.
  - now apply bump_get_ne.
Qed.

Lemma total_bump k d : total (bump k d) = total d + 1.
Proof.
  unfold bump, total, dict_get_or.
  induction d as [|[k' v'] d IH]; simpl; [reflexivity|].
  destruct (String.eqb k k'); simpl; [lia|].
  rewrite IH. lia.
Qed.

Lemma dict_set_Forall {V} (P : string * V -> Prop) k v (d : dict V) :
  (forall k', P (k', v)) -> Forall P d -> Forall P (dict_set k v d).
Proof.
  intros Hv. induction 1 as [|[k' v'] d Hkv Hd IH]; simpl.
  - repeat constructor. apply Hv.
  - destruct (String.eqb k k'); constructor; auto.
Qed.

Lemma bump_positive k d :
  Forall (fun kv => 1 <= snd kv) d -> Forall (fun kv => 1 <= snd kv) (bump k d).
Proof. intros H. apply dict_set_Forall; [intros k'; simpl; lia | exact H]. Qed.

Lemma count_key_snoc key k flows flow :
  count_key key k (flows ++ [flow])
  = count_key key k flows + (if String.eqb (key flow) k then 1 else 0).
Proof.
  unfold count_key. rewrite List.filter_app, length_app. simpl.
  destruct (String.eqb (key flow) k); reflexivity.
Qed.

Lemma count_key_Permutation key k flows flows' :
  Permutation flows flows' -> count_key key k flows = count_key key k flows'.
Proof.
  unfold count_key. induction 1; simpl.
  - reflexivity.
  - destruct (String.eqb (key x) k); simpl; lia.
  - destruct (String.eqb (key x) k), (String.eqb (key y) k); reflexivity.
  - lia.
Qed.

Section with_decoder.
Variable loads : string -> option value.

(** A tally of the object, through the key it is bumped at. *)
Variable tally : FlowSummarizer -> dict nat.
Variable key : HTTPFlow -> string.
Hypothesis tally_response : forall flow self,
  tally (snd (response loads flow self)) = bump (key flow) (tally self).

Lemma tally_counts flows self k :
  tally self = [] ->
  dict_get k (tally (deliver loads flows self))
  = if count_key key k flows =? 0 then None else Some (count_key key k flows).
Proof.
  intros Hnew. induction flows as [|flow flows IH] using rev_ind.
  - simpl. now rewrite Hnew.
  - rewrite deliver_snoc, tally_response, bump_get, count_key_snoc.
    unfold dict_get_or. rewrite IH.
    destruct (String.eqb (key flow) k).
    + destruct (Nat.eqb_spec (count_key key k flows) 0) as [E|E].
      * rewrite E. reflexivity.
      * destruct (Nat.eqb_spec (count_key key k flows + 1) 0); [lia|reflexivity].
    + now rewrite Nat.add_0_r.
Qed.

Lemma tally_total flows self :
  total (tally (deliver loads flows self)) = total (tally self) + length flows.
Proof.
  induction flows as [|flow flows IH] using rev_ind.
  - simpl. lia.
  - rewrite deliver_snoc, tally_response, total_bump, IH, length_app. simpl. lia.
Qed.

Lemma tally_positive flows self :
  Forall (fun kv => 1 <= snd kv) (tally self) ->
  Forall (fun kv => 1 <= snd kv) (tally (deliver loads flows self)).
Proof.
  intros H. induction flows as [|flow flows IH] using rev_ind; [exact H|].
  rewrite deliver_snoc, tally_response. now apply bump_positive.
Qed.

Lemma tally_monotone flows self k n :
  dict_get k (tally self) = Some n ->
  exists m, dict_get k (tally (deliver loads flows self)) = Some m /\ n <= m.
Proof.
  intros Hn. induction flows as [|flow flows IH] using rev_ind.
  - exists n. split; [exact Hn | lia].
  - destruct IH as (m & Hm & Hle).
    rewrite deliver_snoc, tally_response.
    destruct (bump_monotone k (key flow) m _ Hm) as (m' & Hm' & Hle').
    exists m'. split; [exact Hm' | lia].
Qed.

End with_decoder.

Section response_cases.
Variable loads : string -> option value.

(** What [response] appends is always the records of some items of the
    body. *)
Lemma response_records flow self :
  exists items,
    response loads flow self
    = (Return tt, with_calls (tallied flow self) (map (record_of flow) items)).
Proof.
  assert (Hnone : forall o : outcome unit,
    exists items,
      (let '(o', s') := (o, tallied flow self) in
       match o' with Return a => (Return a, s') | Raise e => (Return tt, s') end)
      = (Return tt,
         with_calls (tallied flow self) (map (record_of flow) items))).
  { intros o. exists []. simpl. rewrite with_calls_nil.
    destruct o as [[]|e]; reflexivity. }
  unfold response. run_stmt. fold (tallied flow self).
  destruct (str_contains "/graphql" (request_path flow)).
  2:{ exists []. simpl. now rewrite with_calls_nil. }
  unfold try_except, inspect_graphql. run_stmt.
  destruct (request_get_text flow) as [content|e].
  2:{ exists []. simpl. now rewrite with_calls_nil. }
  destruct (content_truthy content) as [text|].
  2:{ exists []. simpl. now rewrite with_calls_nil. }
  unfold json_loads_call. destruct (loads text) as [data|].
  2:{ exists []. simpl. now rewrite with_calls_nil. }
  assert (Hsingle : forall item, exists items,
    match _process_graphql_item flow item (tallied flow self) with
    | (Return a, s') => (Return a, s')
    | (Raise e, s') => (Return tt, s')
    end
    = (Return tt, with_calls (tallied flow self) (map (record_of flow) items))).
  { intros item. destruct (item_ok item) eqn:Hok.
    - rewrite (process_item_ok _ _ _ Hok). exists [item]. reflexivity.
    - destruct (process_item_bad flow item (tallied flow self) Hok) as (e & ->).
      exists []. simpl. now rewrite with_calls_nil. }
  destruct data; try apply Hsingle.
  destruct (for_each_items flow l (tallied flow self)) as (o & -> & _).
  exists (accepted l). destruct o as [[]|e]; reflexivity.
Qed.

(** A body that decodes to a value other than a list is one item. *)
Lemma response_single flow self text data :
  str_contains "/graphql" (request_path flow) = true ->
  request_get_text flow = Return (Some text) ->
  text <> EmptyString ->
  loads text = Some data ->
  is_list data = false ->
  response loads flow self
  = (Return tt,
     with_calls (tallied flow self)
       (if item_ok data then [record_of flow data] else [])).
Proof.
  intros Hpath Htext Hne Hloads Hlist. unfold response. run_stmt.
  fold (tallied flow self). rewrite Hpath.
  unfold try_except, inspect_graphql. run_stmt. rewrite Htext. simpl.
  destruct (String.eqb_spec text EmptyString) as [E|_]; [contradiction|].
  unfold json_loads_call. rewrite Hloads.
  assert (Hsingle :
    match _process_graphql_item flow data (tallied flow self) with
    | (Return a, s') => (Return a, s')
    | (Raise e, s') => (Return tt, s')
    end
    = (Return tt,
       with_calls (tallied flow self)
         (if item_ok data then [record_of flow data] else []))).
  { destruct (item_ok data) eqn:Hok.
    - now rewrite (process_item_ok _ _ _ Hok).
    - destruct (process_item_bad flow data (tallied flow self) Hok) as (e & ->).
      now rewrite with_calls_nil. }
  destruct data; try exact Hsingle. discriminate Hlist.
Qed.

(** Without a body to decode, [response] stops at the tallies. *)
Lemma response_skips flow self :
  (request_get_text flow = Return None
   \/ request_get_text flow = Return (Some EmptyString)
   \/ (exists e, request_get_text flow = Raise e)
   \/ (exists text, request_get_text flow = Return (Some text)
                    /\ loads text = None)) ->
  response loads flow self = (Return tt, tallied flow self).
Proof.
  intros H. unfold response. run_stmt. fold (tallied flow self).
  destruct (str_contains "/graphql" (request_path flow)); [|reflexivity].
  unfold try_except, inspect_graphql. run_stmt.
  destruct H as [-> | [-> | [(e & ->) | (text & -> & Hloads)]]];
    try reflexivity.
  simpl. destruct (String.eqb text EmptyString); [reflexivity|].
  unfold json_loads_call. now rewrite Hloads.
Qed.

Lemma deliver_calls_prefix flows self :
  graphql_calls self `prefix_of` graphql_calls (deliver loads flows self).
Proof.
  induction flows as [|flow flows IH] using rev_ind; [reflexivity|].
  rewrite deliver_snoc.
  destruct (response_shape loads flow (deliver loads flows self))
    as (records & ->).
  simpl. etransitivity; [exact IH|]. now apply prefix_app_r.
Qed.

Lemma deliver_plain flows self :
  forallb (fun flow => negb (str_contains "/graphql" (request_path flow))) flows
  = true ->
  graphql_calls (deliver loads flows self) = graphql_calls self.
Proof.
  revert self. induction flows as [|flow flows IH]; intros self; simpl;
    [reflexivity|].
  intros H. apply andb_prop in H as [Hflow Hrest].
  apply negb_true_iff in Hflow.
  change (graphql_calls
            (deliver loads flows (snd (response loads flow self)))
          = graphql_calls self).
  rewrite (IH _ Hrest), (response_plain loads flow self Hflow). reflexivity.
Qed.

End response_cases.

(** **** One sorted list for one tally *)

#[local] Existing Instance item_le_total.

#[local] Instance item_le_trans : Transitive item_le.
Proof.
  intros a b c. unfold item_le.
  destruct (String.compare (fst a) (fst b)) eqn:Eab;
    destruct (String.compare (fst b) (fst c)) eqn:Ebc; try tauto.
  - apply String.compare_eq_iff in Eab. rewrite Eab, Ebc. lia.
  - apply String.compare_eq_iff in Eab. rewrite Eab, Ebc. tauto.
  - apply String.compare_eq_iff in Ebc. rewrite <- Ebc, Eab. tauto.
  - intros _ _.
    assert (H : String.compare (fst a) (fst c) = Lt)
      by (eapply str_lt_trans; eassumption).
    now rewrite H.
Qed.

#[local] Instance item_le_antisymm : AntiSymm eq item_le.
Proof.
  intros [ka va] [kb vb]. unfold item_le. simpl.
  rewrite (String.compare_antisym kb ka).
  destruct (String.compare ka kb) eqn:E; simpl; try tauto.
  apply String.compare_eq_iff in E. intros H1 H2. f_equal; [exact E | lia].
Qed.

Lemma dict_Permutation (d1 d2 : dict nat) :
  NoDup (dict_keys d1) -> NoDup (dict_keys d2) ->
  (forall k, dict_get k d1 = dict_get k d2) ->
  Permutation d1 d2.
Proof.
  intros H1 H2 Hget. apply NoDup_Permutation.
  - exact (NoDup_fmap_1 fst d1 H1).
  - exact (NoDup_fmap_1 fst d2 H2).
  - intros [k v]. rewrite !list_elem_of_In.
    rewrite <- (dict_get_In k v d1 H1), <- (dict_get_In k v d2 H2).
    now rewrite Hget.
Qed.

Lemma sorted_same (d1 d2 : dict nat) :
  NoDup (dict_keys d1) -> NoDup (dict_keys d2) ->
  (forall k, dict_get k d1 = dict_get k d2) ->
  sorted (dict_items d1) = sorted (dict_items d2).
Proof.
  intros H1 H2 Hget. unfold sorted, dict_items.
  apply (Sorted_unique item_le).
  - apply (Sorted_merge_sort item_le).
  - apply (Sorted_merge_sort item_le).
  - rewrite !merge_sort_Permutation. now apply dict_Permutation.
Qed.

End FlowSummarizerMoreFacts.

(** ** Further properties of the flow summarizer *)

Module FlowSummarizerExtra.
Import Py PyFacts flow_extractor FlowSummarizerFacts FlowSummarizerMoreFacts.

(** X1.  A body on a ["/graphql"] path that decodes to a value other than a
    list is treated as one item: [response] appends its record when the
    extraction gets through it and nothing otherwise, and ends normally in
    both cases. *)
Theorem single_payload_is_one_item
    (loads : string -> option value) flow self text data :
  str_contains "/graphql" (request_path flow) = true ->
  request_get_text flow = Return (Some text) ->
  text <> EmptyString ->
  loads text = Some data ->
  is_list data = false ->
  fst (response loads flow self) = Return tt
  /\ graphql_calls (snd (response loads flow self))
     = graphql_calls self
       ++ (if item_ok data then [record_of flow data] else []).
Proof.
  intros Hpath Htext Hne Hloads Hlist.
  rewrite (response_single loads flow self text data Hpath Htext Hne Hloads Hlist).
  split; reflexivity.
Qed.

Lemma single_payload_is_one_item_witness :
  (exists text,
     request_get_text single_cart = Return (Some text)
     /\ text <> EmptyString
     /\ Json.decode text = Some cart_value)
  /\ is_list cart_value = false
  /\ graphql_calls (snd (response Json.decode single_cart used_state))
     = [home_record; cart_record].
Proof.
  split; [|split].
  - eexists. split; [reflexivity|]. split; [discriminate | vm_compute; reflexivity].
  - reflexivity.
  - refine (proj2 (single_payload_is_one_item Json.decode single_cart used_state
              _ cart_value _ _ _ _ _)).
    + reflexivity.
    + reflexivity.
    + discriminate.
    + vm_compute. reflexivity.
    + reflexivity.
Defined.

(** X2.  [_process_graphql_item] either appends the one record of the item
    and returns, which it does exactly for the items [item_ok] accepts, or
    raises [AttributeError] or [TypeError] and leaves the object as it
    was. *)
Theorem process_item_exact flow item self :
  (item_ok item = true
   /\ _process_graphql_item flow item self
      = (Return tt, with_calls self [record_of flow item]))
  \/ (item_ok item = false
      /\ exists e,
           _process_graphql_item flow item self = (Raise e, self)
           /\ (e = AttributeError \/ e = TypeError)).
Proof.
  destruct (item_ok item) eqn:Hok.
  - left. split; [reflexivity|]. now apply process_item_ok.
  - right. split; [reflexivity|]. now apply process_item_raises.
Qed.

(** X3.  A flow without a request body, or with an empty one, only updates
    the two tallies, on every path and whatever the decoder. *)
Theorem no_body_only_tallies (loads : string -> option value) flow self :
  request_get_text flow = Return None
  \/ request_get_text flow = Return (Some EmptyString) ->
  response loads flow self = (Return tt, tallied flow self).
Proof.
  intros H. apply response_skips. destruct H as [H|H]; auto.
Qed.

Lemma no_body_only_tallies_witness :
  request_get_text empty_body = Return (Some EmptyString)
  /\ response Json.decode empty_body used_state
     = (Return tt, tallied empty_body used_state).
Proof.
  split; [reflexivity|].
  apply (no_body_only_tallies Json.decode empty_body used_state).
  right. reflexivity.
Defined.

(** X4.  A flow whose body cannot be read as text, or whose text the
    decoder rejects, only updates the two tallies: the failure is swallowed
    and no call is recorded. *)
Theorem rejected_body_only_tallies (loads : string -> option value) flow self :
  (exists e, request_get_text flow = Raise e)
  \/ (exists text, request_get_text flow = Return (Some text)
                   /\ loads text = None) ->
  response loads flow self = (Return tt, tallied flow self).
Proof.
  intros H. apply response_skips. destruct H as [H|H]; auto.
Qed.

Lemma rejected_body_only_tallies_witness :
  (exists text, request_get_text not_json = Return (Some text)
                /\ Json.decode text = None)
  /\ response Json.decode not_json used_state
     = (Return tt, tallied not_json used_state).
Proof.
  assert (H : exists text, request_get_text not_json = Return (Some text)
                           /\ Json.decode text = None).
  { eexists. split; [reflexivity | vm_compute; reflexivity]. }
  split; [exact H|].
  apply (rejected_body_only_tallies Json.decode not_json used_state).
  right. exact H.
Defined.

(** X5.  A batch never adds more records than it has items, and adds as
    many exactly when the extraction gets through every item. *)
Theorem batch_count_bound
    (loads : string -> option value) flow self text items :
  str_contains "/graphql" (request_path flow) = true ->
  request_get_text flow = Return (Some text) ->
  text <> EmptyString ->
  loads text = Some (VList items) ->
  length (graphql_calls (snd (response loads flow self)))
  <= length (graphql_calls self) + length items
  /\ (length (graphql_calls (snd (response loads flow self)))
      = length (graphql_calls self) + length items
      <-> forallb item_ok items = true).
Proof.
  intros Hpath Htext Hne Hloads.
  rewrite (response_batch loads flow self text items Hpath Htext Hne Hloads).
  simpl. rewrite length_app, length_map.
  pose proof (accepted_length items) as Hle.
  pose proof (accepted_length_full items) as Hfull.
  split; [lia|]. rewrite <- Hfull. lia.
Qed.

Lemma batch_count_bound_witness :
  (exists text,
     request_get_text batch_with_number = Return (Some text)
     /\ text <> EmptyString
     /\ Json.decode text = Some (VList [cart_value; VInt 7; home_value]))
  /\ length (graphql_calls
               (snd (response Json.decode batch_with_number used_state)))
     <= length (graphql_calls used_state) + 3.
Proof.
  split.
  - eexists. split; [reflexivity|]. split; [discriminate | vm_compute; reflexivity].
  - refine (proj1 (batch_count_bound Json.decode batch_with_number used_state
              _ [cart_value; VInt 7; home_value] _ _ _ _)).
    + reflexivity.
    + reflexivity.
    + discriminate.
    + vm_compute. reflexivity.
Defined.

(** X6.  After any sequence of flows delivered to a new object, the
    endpoint tally holds at each key the number of delivered flows with
    that ["METHOD URL"] key, and no entry for a key that no flow had; the
    host tally does the same for hosts. *)
Theorem tally_is_count
    (loads : string -> option value) environ flows k :
  dict_get k (endpoints (deliver loads flows (__init__ environ)))
  = (if count_key endpoint_key k flows =? 0 then None
     else Some (count_key endpoint_key k flows))
  /\ dict_get k (hosts (deliver loads flows (__init__ environ)))
     = (if count_key request_pretty_host k flows =? 0 then None
        else Some (count_key request_pretty_host k flows)).
Proof.
  split.
  - apply (tally_counts loads endpoints endpoint_key (response_endpoints loads)).
    reflexivity.
  - apply (tally_counts loads hosts request_pretty_host (response_hosts loads)).
    reflexivity.
Qed.

(** X7.  Every delivered flow is counted once in each tally: over any
    sequence of flows the sum of the endpoint counts and the sum of the
    host counts both grow by the number of flows. *)
Theorem tally_totals (loads : string -> option value) flows self :
  total (endpoints (deliver loads flows self))
  = total (endpoints self) + length flows
  /\ total (hosts (deliver loads flows self))
     = total (hosts self) + length flows.
Proof.
  split.
  - apply (tally_total loads endpoints endpoint_key (response_endpoints loads)).
  - apply (tally_total loads hosts request_pretty_host (response_hosts loads)).
Qed.

(** X8.  The tallies of the summary do not depend on the order in which the
    flows arrived: two new objects that received the same flows in
    different orders write the same [endpoints] and [hosts]. *)
Theorem summary_ignores_arrival_order
    (loads : string -> option value) environ flows flows' :
  Permutation flows flows' ->
  summary_endpoints (make_summary (deliver loads flows (__init__ environ)))
  = summary_endpoints (make_summary (deliver loads flows' (__init__ environ)))
  /\ summary_hosts (make_summary (deliver loads flows (__init__ environ)))
     = summary_hosts (make_summary (deliver loads flows' (__init__ environ))).
Proof.
  intros Hperm.
  destruct (deliver_NoDup loads flows (__init__ environ)) as [He Hh];
    [constructor | constructor |].
  destruct (deliver_NoDup loads flows' (__init__ environ)) as [He' Hh'];
    [constructor | constructor |].
  unfold make_summary. simpl. split; f_equal.
  - apply sorted_same; [exact He | exact He' |]. intros k.
    rewrite !(tally_counts loads endpoints endpoint_key
                (response_endpoints loads)) by reflexivity.
    now rewrite (count_key_Permutation endpoint_key k flows flows' Hperm).
  - apply sorted_same; [exact Hh | exact Hh' |]. intros k.
    rewrite !(tally_counts loads hosts request_pretty_host
                (response_hosts loads)) by reflexivity.
    now rewrite (count_key_Permutation request_pretty_host k flows flows' Hperm).
Qed.

Lemma summary_ignores_arrival_order_witness :
  Permutation [post_b_y; get_a_x; get_a_x] [get_a_x; post_b_y; get_a_x]
  /\ summary_endpoints
       (make_summary (deliver Json.decode [post_b_y; get_a_x; get_a_x]
                        (__init__ ∅)))
     = summary_endpoints
         (make_summary (deliver Json.decode [get_a_x; post_b_y; get_a_x]
                          (__init__ ∅))).
Proof.
  assert (H : Permutation [post_b_y; get_a_x; get_a_x]
                          [get_a_x; post_b_y; get_a_x]) by apply perm_swap.
  split; [exact H|].
  exact (proj1 (summary_ignores_arrival_order Json.decode ∅ _ _ H)).
Defined.

(** X9.  Whatever flows a new object has received, each tally has distinct
    keys and every count in it is at least 1. *)
Theorem tallies_well_formed (loads : string -> option value) environ flows :
  NoDup (dict_keys (endpoints (deliver loads flows (__init__ environ))))
  /\ NoDup (dict_keys (hosts (deliver loads flows (__init__ environ))))
  /\ Forall (fun kv => 1 <= snd kv)
       (endpoints (deliver loads flows (__init__ environ)))
  /\ Forall (fun kv => 1 <= snd kv)
       (hosts (deliver loads flows (__init__ environ))).
Proof.
  destruct (deliver_NoDup loads flows (__init__ environ)) as [He Hh];
    [constructor | constructor |].
  split; [exact He|]. split; [exact Hh|]. split.
  - apply (tally_positive loads endpoints endpoint_key (response_endpoints loads)).
    constructor.
  - apply (tally_positive loads hosts request_pretty_host (response_hosts loads)).
    constructor.
Qed.

(** X10.  Whatever the body, every record one call to [response] appends
    carries the host and the path of the flow of that call. *)
Theorem records_carry_flow (loads : string -> option value) flow self :
  exists records,
    graphql_calls (snd (response loads flow self))
    = graphql_calls self ++ records
    /\ Forall (fun r => host r = request_pretty_host flow
                        /\ path r = request_path flow) records.
Proof.
  destruct (response_records loads flow self) as (items & ->).
  exists (map (record_of flow) items). split; [reflexivity|].
  apply List.Forall_forall. intros r Hr.
  apply in_map_iff in Hr as (item & <- & _). split; reflexivity.
Qed.

(** X11.  Over any sequence of calls to [response] the output path stays
    the same, the calls recorded before remain a prefix of the calls
    recorded after, and no count of either tally decreases. *)
Theorem deliver_monotone (loads : string -> option value) flows self :
  output_path (deliver loads flows self) = output_path self
  /\ graphql_calls self `prefix_of` graphql_calls (deliver loads flows self)
  /\ (forall k n, dict_get k (endpoints self) = Some n ->
        exists m, dict_get k (endpoints (deliver loads flows self)) = Some m
                  /\ n <= m)
  /\ (forall h n, dict_get h (hosts self) = Some n ->
        exists m, dict_get h (hosts (deliver loads flows self)) = Some m
                  /\ n <= m).
Proof.
  split; [apply deliver_output_path|].
  split; [apply deliver_calls_prefix|]. split.
  - intros k n.
    apply (tally_monotone loads endpoints endpoint_key (response_endpoints loads)).
  - intros h n.
    apply (tally_monotone loads hosts request_pretty_host (response_hosts loads)).
Qed.

Lemma deliver_monotone_witness :
  dict_get "a" (hosts used_state) = Some 2
  /\ exists m,
       dict_get "a"
         (hosts (deliver Json.decode [get_a_x; batch_of_two] used_state))
       = Some m
       /\ 2 <= m.
Proof.
  split; [reflexivity|].
  apply (proj2 (proj2 (proj2 (deliver_monotone Json.decode
                                [get_a_x; batch_of_two] used_state))) "a" 2).
  reflexivity.
Defined.

(** X12.  A sequence of flows none of whose paths contains ["/graphql"]
    records no call. *)
Theorem plain_flows_record_no_call
    (loads : string -> option value) flows self :
  forallb (fun flow => negb (str_contains "/graphql" (request_path flow))) flows
  = true ->
  graphql_calls (deliver loads flows self) = graphql_calls self.
Proof. apply deliver_plain. Qed.

Lemma plain_flows_record_no_call_witness :
  forallb (fun flow => negb (str_contains "/graphql" (request_path flow)))
    [get_a_x; post_b_y; get_a_x] = true
  /\ graphql_calls (deliver Json.decode [get_a_x; post_b_y; get_a_x] used_state)
     = [home_record].
Proof.
  split; [reflexivity|].
  exact (plain_flows_record_no_call Json.decode
           [get_a_x; post_b_y; get_a_x] used_state eq_refl).
Defined.

(** X13.  [done] may run more than once: a later [done], after any further
    flows, replaces what the earlier one wrote, and the files are as if
    only the later one had run. *)
Theorem done_last_write_wins
    (loads : string -> option value) flows self (files : gmap string summary) :
  done (deliver loads flows self) (done self files)
  = done (deliver loads flows self) files
  /\ done (deliver loads flows self) (done self files) !! output_path self
     = Some (make_summary (deliver loads flows self)).
Proof.
  unfold done. rewrite (deliver_output_path loads flows self). split.
  - apply insert_insert_eq.
  - apply lookup_insert_eq.
Qed.

End FlowSummarizerExtra.

(** ** More facts about the log inspector *)

Module LogInspectorMoreFacts.
Import Py PyFacts analyze_logs LogInspectorFacts.

Lemma str_partition_none sep s :
  str_contains sep s = false -> str_partition sep s = None.
Proof.
  induction s as [|ch s IH]; cbn [str_contains str_partition].
  - destruct (String.prefix sep EmptyString); cbn [orb];
      [discriminate | reflexivity].
  - destruct (String.prefix sep (String ch s)); cbn [orb]; [discriminate|].
    intros H. now rewrite (IH H).
Qed.

Lemma after_response_none line :
  str_contains "response: " line = false -> after_response line = Raise IndexError.
Proof.
  intros H. unfold after_response, str_split1.
  now rewrite (str_partition_none _ _ H).
Qed.

Lemma after_response_raises line e :
  after_response line = Raise e -> e = IndexError.
Proof.
  unfold after_response.
  destruct (nth_error (str_split1 "response: " line) 1); [discriminate|].
  now intros [= <-].
Qed.

Lemma first_marker_app lines more n line :
  first_marker_line lines = Some (n, line) ->
  first_marker_line (lines ++ more) = Some (n, line).
Proof.
  revert n. induction lines as [|l lines IH]; intros n; simpl; [discriminate|].
  destruct (str_contains marker l); [auto|].
  destruct (first_marker_line lines) as [[m l']|]; [|discriminate].
  intros [= <- <-]. now rewrite (IH m eq_refl).
Qed.

Lemma first_marker_none lines :
  first_marker_line lines = None ->
  Forall (fun line => str_contains marker line = false) lines.
Proof.
  induction lines as [|l lines IH]; simpl; [constructor|].
  destruct (str_contains marker l) eqn:E; [discriminate|].
  destruct (first_marker_line lines) as [[m l']|]; [discriminate|].
  intros _. constructor; auto.
Qed.

Lemma forallb_false_existsb {A} (f : A -> bool) l :
  forallb f l = false -> existsb (fun x => negb (f x)) l = true.
Proof.
  induction l as [|x l IH]; simpl; [discriminate|].
  destruct (f x); simpl; auto.
Qed.

(** Every payload either yields the report of a list of dicts, or raises
    [AttributeError] or [TypeError] after what it has printed. *)
Lemma print_components_cases data c :
  (exists comps,
     forallb is_dict comps = true
     /\ print_components data c
        = (Return tt,
           emit c (Found (length comps)
                   :: flat_map component_output (enumerate comps))))
  \/ (exists e out,
        print_components data c = (Raise e, emit c out)
        /\ (e = AttributeError \/ e = TypeError)
        /\ ~ In DecodeFailed out).
Proof.
  assert (Hnone : forall e, e = AttributeError \/ e = TypeError ->
            exists e' out, (Raise e : outcome unit, c) = (Raise e', emit c out)
              /\ (e' = AttributeError \/ e' = TypeError)
              /\ ~ In DecodeFailed out).
  { intros e He. exists e, []. rewrite emit_nil. repeat split; auto. }
  assert (Hfound : forall n,
            exists e' out,
              (Raise AttributeError : outcome unit, emit c [Found n])
              = (Raise e', emit c out)
              /\ (e' = AttributeError \/ e' = TypeError)
              /\ ~ In DecodeFailed out).
  { intros n. exists AttributeError, [Found n].
    repeat split; auto. intros [H|[]]. discriminate. }
  destruct data as [| | | | | |d0]; try (right; apply Hnone; auto).
  unfold print_components. run_stmt.
  destruct (dict_get_or "data" (VDict []) d0) as [| | | | | |d1]; simpl;
    try (right; apply Hnone; auto).
  destruct (dict_get_or "nativeEntryPoint" (VDict []) d1) as [| | | | | |d2];
    simpl; try (right; apply Hnone; auto).
  destruct (dict_get_or "visualComponents" (VList []) d2) as [|b|z|f|s|l|d];
    simpl; try (right; apply Hnone; auto).
  - destruct s as [|ch s]; simpl.
    + left. exists []. split; reflexivity.
    + right. apply Hfound.
  - destruct (forallb is_dict l) eqn:Hd.
    + left. exists l. split; [exact Hd|].
      change (for_each (enumerate l)
                (fun ic => print_component (fst ic) (snd ic))
                (emit c [Found (length l)])
              = (Return tt,
                 emit c (Found (length l)
                         :: flat_map component_output (enumerate l)))).
      unfold enumerate. rewrite (print_all_components _ _ _ Hd), emit_emit.
      reflexivity.
    + right. apply forallb_false_existsb in Hd.
      destruct (print_some_components l 0 (emit c [Found (length l)]) Hd)
        as (out & Hout & Hclean).
      exists AttributeError, (Found (length l) :: out).
      split; [|split; auto].
      * unfold enumerate. etransitivity; [exact Hout|]. now rewrite emit_emit.
      * intros [H|H]; [discriminate | tauto].
  - destruct d as [|kv d]; simpl.
    + left. exists []. split; reflexivity.
    + right. apply Hfound.
Qed.

(** A payload with a step of the path missing reports no component. *)
Lemma print_components_missing data c :
  path_missing data = true ->
  print_components data c = (Return tt, emit c [Found 0]).
Proof.
  unfold path_missing.
  destruct data as [| | | | | |d0]; try discriminate.
  unfold print_components. run_stmt. unfold dict_get_or.
  destruct (dict_get "data" d0) as [[| | | | | |d1]|]; try discriminate;
    [|reflexivity].
  simpl. unfold dict_get_or.
  destruct (dict_get "nativeEntryPoint" d1) as [[| | | | | |d2]|];
    try discriminate; [|reflexivity].
  simpl. unfold dict_get_or.
  destruct (dict_get "visualComponents" d2); [discriminate | reflexivity].
Qed.

Lemma print_components_not_dict data c :
  is_dict data = false -> print_components data c = (Raise AttributeError, c).
Proof. destruct data; try reflexivity. discriminate. Qed.

Section with_decoder.
Variable loads : string -> option value.

(** The script from the first marker line on. *)
Lemma main_at_marker lines n line :
  first_marker_line lines = Some (n, line) ->
  main loads lines
  = (text ← eval (after_response line); report loads (str_strip text))
      {| stdout := []; lines_read := S n |}.
Proof.
  intros H. unfold main. rewrite (scan_first_marker loads lines n line _ H).
  reflexivity.
Qed.

(** All the ways the script can end. *)
Lemma main_cases lines :
  (first_marker_line lines = None
   /\ main loads lines
      = (Return tt, {| stdout := []; lines_read := length lines |}))
  \/ exists n line,
       first_marker_line lines = Some (n, line)
       /\ (main loads lines
           = (Raise IndexError, {| stdout := []; lines_read := S n |})
           \/ main loads lines
              = (Return tt, {| stdout := [DecodeFailed]; lines_read := S n |})
           \/ (exists comps,
                 forallb is_dict comps = true
                 /\ main loads lines
                    = (Return tt,
                       {| stdout := Found (length comps)
                                    :: flat_map component_output (enumerate comps);
                          lines_read := S n |}))
           \/ (exists e out,
                 main loads lines
                 = (Raise e, {| stdout := out; lines_read := S n |})
                 /\ (e = AttributeError \/ e = TypeError)
                 /\ ~ In DecodeFailed out)).
Proof.
  destruct (first_marker_line lines) as [[n line]|] eqn:Hline.
  - right. exists n, line. split; [reflexivity|].
    rewrite (main_at_marker lines n line Hline).
    unfold mbind, M_bind, eval.
    destruct (after_response line) as [text|e] eqn:Hafter.
    2:{ left. now rewrite (after_response_raises line e Hafter). }
    unfold report, try_except, mbind, M_bind, eval, json_loads_call.
    destruct (loads (str_strip text)) as [data|].
    2:{ right. left. reflexivity. }
    destruct (print_components_cases data {| stdout := []; lines_read := S n |})
      as [(comps & Hd & ->) | (e & out & -> & He & Hclean)].
    + right. right. left. exists comps. split; [exact Hd | reflexivity].
    + right. right. right. exists e, out.
      assert (Hnot : is_JSONDecodeError e = false)
        by (destruct He; subst; reflexivity).
      rewrite Hnot. split; [reflexivity | auto].
  - left. split; [reflexivity|]. unfold main.
    now rewrite (scan_no_marker loads lines _ (first_marker_none lines Hline)).
Qed.

End with_decoder.

(** **** Lengths of strs *)

Lemma length_append s t :
  String.length (s +:+ t) = String.length s + String.length t.
Proof. induction s as [|ch s IH]; simpl; [reflexivity | now rewrite IH]. Qed.

Lemma length_substring_0 n s :
  n <= String.length s -> String.length (String.substring 0 n s) = n.
Proof.
  revert s. induction n as [|n IH]; intros s; simpl.
  - destruct s; reflexivity.
  - destruct s as [|ch s]; simpl; [lia|]. intros H. rewrite IH; lia.
Qed.

End LogInspectorMoreFacts.

(** ** Further properties of the log inspector *)

Module LogInspectorExtra.
Import Py PyFacts analyze_logs LogInspectorFacts LogInspectorMoreFacts.

(** X14.  The marker ends in a colon and the split is on ["response: "]
    with a blank: when the first marker line has no ["response: "] in it,
    indexing the split raises [IndexError] outside the [try] statement, and
    the script ends with it having printed nothing. *)
Theorem marker_without_separator_raises
    (loads : string -> option value) lines n line :
  first_marker_line lines = Some (n, line) ->
  str_contains "response: " line = false ->
  main loads lines = (Raise IndexError, {| stdout := []; lines_read := S n |}).
Proof.
  intros Hline Hsep. rewrite (main_at_marker loads lines n line Hline).
  unfold mbind, M_bind, eval. now rewrite (after_response_none line Hsep).
Qed.

Lemma marker_without_separator_raises_witness :
  first_marker_line no_space_log
  = Some (1, "DEBUG: entryPoint(home-page) response:{}")
  /\ str_contains "response: " "DEBUG: entryPoint(home-page) response:{}" = false
  /\ main Json.decode no_space_log
     = (Raise IndexError, {| stdout := []; lines_read := 2 |}).
Proof.
  split; [reflexivity|]. split; [reflexivity|].
  exact (marker_without_separator_raises Json.decode no_space_log 1 _
           eq_refl eq_refl).
Defined.

(** X15.  When the decoder rejects the text after ["response: "] on the
    first marker line, the script prints the one failure line and ends
    normally. *)
Theorem invalid_json_is_reported
    (loads : string -> option value) lines n line text :
  first_marker_line lines = Some (n, line) ->
  after_response line = Return text ->
  loads (str_strip text) = None ->
  main loads lines
  = (Return tt, {| stdout := [DecodeFailed]; lines_read := S n |}).
Proof.
  intros Hline Htext Hloads. rewrite (main_at_marker loads lines n line Hline).
  unfold mbind, M_bind, eval. rewrite Htext.
  unfold report, try_except, mbind, M_bind, eval, json_loads_call.
  now rewrite Hloads.
Qed.

Lemma invalid_json_is_reported_witness :
  (exists line text,
     first_marker_line broken_json_log = Some (0, line)
     /\ after_response line = Return text
     /\ Json.decode (str_strip text) = None)
  /\ main Json.decode broken_json_log
     = (Return tt, {| stdout := [DecodeFailed]; lines_read := 1 |}).
Proof.
  split.
  - eexists _, _. split; [reflexivity|]. split; [reflexivity|].
    vm_compute. reflexivity.
  - refine (invalid_json_is_reported Json.decode broken_json_log 0 _ _ _ _ _).
    + reflexivity.
    + reflexivity.
    + vm_compute. reflexivity.
Defined.

(** X16.  The loop breaks at the first marker line: the script takes no line
    after it, so whatever follows it in the file, later marker lines
    included, changes neither the outcome nor the output. *)
Theorem only_first_marker_line_counts
    (loads : string -> option value) lines n line more :
  first_marker_line lines = Some (n, line) ->
  main loads (lines ++ more) = main loads lines
  /\ lines_read (snd (main loads lines)) = S n.
Proof.
  intros Hline. split.
  - rewrite (main_at_marker loads (lines ++ more) n line
               (first_marker_app lines more n line Hline)).
    now rewrite (main_at_marker loads lines n line Hline).
  - destruct (main_cases loads lines)
      as [(Hnone & _) | (n' & line' & Hsome & Hcases)]; [congruence|].
    rewrite Hline in Hsome. injection Hsome as <- <-.
    destruct Hcases as [-> | [-> | [(comps & _ & ->) | (e & out & -> & _)]]];
      reflexivity.
Qed.

Lemma only_first_marker_line_counts_witness :
  (exists line, first_marker_line (firstn 1 two_marker_log) = Some (0, line))
  /\ main Json.decode two_marker_log
     = main Json.decode (firstn 1 two_marker_log)
  /\ lines_read (snd (main Json.decode (firstn 1 two_marker_log))) = 1.
Proof.
  split; [eexists; reflexivity|].
  exact (only_first_marker_line_counts Json.decode (firstn 1 two_marker_log)
           0 _ (skipn 1 two_marker_log) eq_refl).
Defined.

(** X17.  Missing fields default to empty: when the payload is an object
    and [data], [nativeEntryPoint] or [visualComponents] is absent, each
    step before the absent one being an object, the script prints
    ["Found 0 components:"] alone and ends normally. *)
Theorem missing_fields_default_to_empty
    (loads : string -> option value) lines n line text data :
  first_marker_line lines = Some (n, line) ->
  after_response line = Return text ->
  loads (str_strip text) = Some data ->
  path_missing data = true ->
  main loads lines
  = (Return tt, {| stdout := [Found 0]; lines_read := S n |}).
Proof.
  intros Hline Htext Hloads Hmiss.
  rewrite (main_at_marker loads lines n line Hline).
  unfold mbind, M_bind, eval. rewrite Htext.
  unfold report, try_except, mbind, M_bind, eval, json_loads_call.
  rewrite Hloads. now rewrite (print_components_missing data _ Hmiss).
Qed.

Lemma missing_fields_default_to_empty_witness :
  (exists line text,
     first_marker_line no_entry_point_log = Some (0, line)
     /\ after_response line = Return text
     /\ Json.decode (str_strip text)
        = Some (VDict [("data", VDict [("other", VInt 1)])]))
  /\ path_missing (VDict [("data", VDict [("other", VInt 1)])]) = true
  /\ main Json.decode no_entry_point_log
     = (Return tt, {| stdout := [Found 0]; lines_read := 1 |}).
Proof.
  split; [|split].
  - eexists _, _. split; [reflexivity|]. split; [reflexivity|].
    vm_compute. reflexivity.
  - reflexivity.
  - refine (missing_fields_default_to_empty Json.decode no_entry_point_log
              0 _ _ (VDict [("data", VDict [("other", VInt 1)])]) _ _ _ _).
    + reflexivity.
    + reflexivity.
    + vm_compute. reflexivity.
    + reflexivity.
Defined.

(** X18.  The description of a field that is neither a list nor a dict
    shows the [str] of the value unchanged when it has at most 50
    characters, and otherwise its first 50 characters followed by three
    dots; the text shown never has more than 53 characters. *)
Theorem scalar_field_is_truncated key v :
  is_list v = false ->
  is_dict v = false ->
  exists shown,
    describe_field (key, v) = ScalarField key shown
    /\ String.length shown <= 53
    /\ (String.length (py_str v) <= 50 -> shown = py_str v)
    /\ (50 < String.length (py_str v) ->
        shown = String.substring 0 50 (py_str v) +:+ "..."
        /\ String.length shown = 53).
Proof.
  intros Hl Hd.
  exists (if 50 <? String.length (py_str v)
          then String.substring 0 50 (py_str v) +:+ "..."
          else py_str v).
  split; [destruct v; try reflexivity; discriminate|].
  destruct (Nat.ltb_spec 50 (String.length (py_str v))) as [Hlong|Hshort].
  - assert (Hlen : String.length (String.substring 0 50 (py_str v) +:+ "...") = 53).
    { rewrite length_append, length_substring_0 by lia. reflexivity. }
    split; [lia|]. split; [lia|]. intros _. split; [reflexivity | exact Hlen].
  - split; [lia|]. split; [reflexivity | lia].
Qed.

Lemma scalar_field_is_truncated_witness :
  is_list (VStr "0123456789012345678901234567890123456789012345678901234") = false
  /\ is_dict (VStr "0123456789012345678901234567890123456789012345678901234") = false
  /\ exists shown,
       describe_field
         ("id", VStr "0123456789012345678901234567890123456789012345678901234")
       = ScalarField "id" shown
       /\ String.length shown <= 53.
Proof.
  split; [reflexivity|]. split; [reflexivity|].
  destruct (scalar_field_is_truncated "id"
              (VStr "0123456789012345678901234567890123456789012345678901234")
              eq_refl eq_refl) as (shown & Hshown & Hlen & _).
  exists shown. split; [exact Hshown | exact Hlen].
Defined.

(** X19.  When the text on the first marker line decodes to a value that is
    not an object (a list, a number, a str, null), the first [.get] raises
    [AttributeError], which the [try] statement does not catch: the script
    ends with it having printed nothing. *)
Theorem payload_not_an_object_raises
    (loads : string -> option value) lines n line text data :
  first_marker_line lines = Some (n, line) ->
  after_response line = Return text ->
  loads (str_strip text) = Some data ->
  is_dict data = false ->
  main loads lines
  = (Raise AttributeError, {| stdout := []; lines_read := S n |}).
Proof.
  intros Hline Htext Hloads Hd.
  rewrite (main_at_marker loads lines n line Hline).
  unfold mbind, M_bind, eval. rewrite Htext.
  unfold report, try_except, mbind, M_bind, eval, json_loads_call.
  rewrite Hloads. now rewrite (print_components_not_dict data _ Hd).
Qed.

Lemma payload_not_an_object_raises_witness :
  (exists line text,
     first_marker_line list_payload_log = Some (0, line)
     /\ after_response line = Return text
     /\ Json.decode (str_strip text) = Some (VList [VInt 1; VInt 2]))
  /\ is_dict (VList [VInt 1; VInt 2]) = false
  /\ main Json.decode list_payload_log
     = (Raise AttributeError, {| stdout := []; lines_read := 1 |}).
Proof.
  split; [|split].
  - eexists _, _. split; [reflexivity|]. split; [reflexivity|].
    vm_compute. reflexivity.
  - reflexivity.
  - refine (payload_not_an_object_raises Json.decode list_payload_log
              0 _ _ (VList [VInt 1; VInt 2]) _ _ _ _).
    + reflexivity.
    + reflexivity.
    + vm_compute. reflexivity.
    + reflexivity.
Defined.

(** X21.  When the script ends normally it has printed nothing, or the one
    failure line, or the report of a list of objects: a first line with
    their number N, then for each of them a typename line and its field
    lines, so that N typename lines follow the first line. *)
Theorem normal_end_output_shape (loads : string -> option value) lines :
  fst (main loads lines) = Return tt ->
  stdout (snd (main loads lines)) = []
  \/ stdout (snd (main loads lines)) = [DecodeFailed]
  \/ exists comps,
       forallb is_dict comps = true
       /\ stdout (snd (main loads lines))
          = Found (length comps) :: flat_map component_output (enumerate comps)
       /\ typename_lines (stdout (snd (main loads lines))) = length comps.
Proof.
  destruct (main_cases loads lines)
    as [(_ & ->) | (n & line & Hline & Hcases)]; [now left|].
  destruct Hcases as [H | [H | [(comps & Hd & H) | (e' & out & H & _)]]];
    rewrite H; simpl; try discriminate; intros _.
  - right. now left.
  - right. right. exists comps. split; [exact Hd|]. split; [reflexivity|].
    change (typename_lines (flat_map component_output (enumerate comps))
            = length comps).
    rewrite typename_lines_components.
    rewrite <- (enumerate_from_snd comps 0) at 2. now rewrite length_map.
Qed.

Lemma normal_end_output_shape_witness :
  fst (main Json.decode banner_log) = Return tt
  /\ (stdout (snd (main Json.decode banner_log)) = []
      \/ stdout (snd (main Json.decode banner_log)) = [DecodeFailed]
      \/ exists comps,
           forallb is_dict comps = true
           /\ stdout (snd (main Json.decode banner_log))
              = Found (length comps)
                :: flat_map component_output (enumerate comps)
           /\ typename_lines (stdout (snd (main Json.decode banner_log)))
              = length comps).
Proof.
  assert (H : fst (main Json.decode banner_log) = Return tt)
    by (vm_compute; reflexivity).
  split; [exact H|].
  exact (normal_end_output_shape Json.decode banner_log H).
Defined.

End LogInspectorExtra.

(** ** The log inspector and the exceptions of the decoder *)

Module LogInspectorDecoderFacts.
Import Py PyFacts analyze_logs LogInspectorFacts LogInspectorMoreFacts.

Section with_raising_decoder.
Variable loads_outcome : string -> outcome value.



End with_raising_decoder.

(** With a decoder that only rejects by [JSONDecodeError], the script is
    [main]. *)
Lemma main_with_json_loads_call (loads : string -> option value) lines :
  main_with (json_loads_call loads) lines = main loads lines.
Proof.
  unfold main_with, main. generalize {| stdout := []; lines_read := 0 |}.
  induction lines as [|l lines IH]; intros c; simpl; [reflexivity|].
  unfold mbind at 1 3, M_bind at 1 3. simpl.
  destruct (str_contains marker l); [reflexivity | apply IH].
Qed.

End LogInspectorDecoderFacts.

Module LogInspectorDecoder.
Import Py PyFacts analyze_logs LogInspectorFacts LogInspectorMoreFacts.
Import LogInspectorDecoderFacts.



End LogInspectorDecoder.
